(** * discord/asset.py: CDN asset URLs, their validation, fetching and saving

    A shallow embedding of the [Asset] class.  Python integers are [Z],
    [str] is [string], [bytes] is a list of bytes, [None]-able values are
    [option]s, frozensets of strings are [gset string].  A call that may
    raise returns a [result]; the coroutines [read] and [save], which talk
    to the network and to files, thread a [World] through their calls. *)

From Stdlib Require Import ZArith String List Bool Lia.
From stdpp Require Import gmap strings list fin_maps pretty.

Local Open Scope string_scope.
Local Open Scope Z_scope.

(** ** Exceptions and results *)

(** A piece of an f-string used as an exception message.  The messages that
    interpolate a frozenset keep the set itself: its [repr] depends on the
    iteration order chosen by the interpreter. *)
Inductive fragment : Type :=
  | Lit (s : string)
  | ReprSet (s : gset string).

Definition message : Type := list fragment.

(** The exception classes this module raises or lets through. *)
Inductive exn : Type :=
  | InvalidArgument (msg : message)
  | DiscordException (msg : message)
  | HTTPException (msg : message)
  | NotFound (msg : message)
  | TypeError (msg : message)
  | OSError (msg : message).

Inductive result (A : Type) : Type :=
  | Return (a : A)
  | Raise (e : exn).

Arguments Return {A} a.
Arguments Raise {A} e.

Definition is_InvalidArgument {A} (r : result A) : bool :=
  match r with Raise (InvalidArgument _) => true | _ => false end.

(** ** The connection state and the asset *)

Definition bytes : Type := list Byte.byte.

(** [state.http.get_from_cdn(url)]: what the CDN answers for a URL. *)
Record HTTPClient : Type := { get_from_cdn : string -> result bytes }.

Record ConnectionState : Type := { http : HTTPClient }.

(** [__slots__ = ('_state', '_url')]; [__init__(self, state, url=None)]. *)
Record Asset : Type := mkAsset {
  _state : option ConnectionState;
  _url : option string
}.

Definition BASE : string := "https://cdn.discordapp.com".

(** [cls(state)] and [cls(state, url)]. *)
Definition cls (state : option ConnectionState) (url : option string) : Asset :=
  mkAsset state url.

(** ** The objects the factories read from *)

Module User.
Record t : Type := {
  id : Z;
  avatar : option string;
  is_avatar_animated : bool;
  default_avatar_url : Asset
}.
End User.

(** The [object] argument of [_from_icon]. *)
Module IconObject.
Record t : Type := { id : Z; icon : option string }.
End IconObject.

(** The [obj] argument of [_from_cover_image]. *)
Module CoverObject.
Record t : Type := { id : Z; cover_image : option string }.
End CoverObject.

Module Guild.
Record t : Type := {
  id : Z;
  icon : option string;
  is_icon_animated : bool
}.
End Guild.

Module Sticker.
Record t : Type := { id : Z; image : string }.
End Sticker.

Module Emoji.
Record t : Type := { id : Z; animated : bool }.
End Emoji.

(** ** Formats and sizes *)

Definition VALID_STATIC_FORMATS : gset string :=
  {[ "jpeg"; "jpg"; "webp"; "png" ]}.

Definition VALID_AVATAR_FORMATS : gset string :=
  VALID_STATIC_FORMATS ∪ {[ "gif" ]}.

(** [str(n)] for an [int], as an f-string interpolates it. *)
Definition str (n : Z) : string := pretty n.

Module utils.
(** Modelled from the spec: [utils.valid_icon_size] is defined in
    discord/utils.py, which is not among the sources.  The spec asks for
    "a power of two within [16, 4096]"; a number [n >= 1] is a power of
    two exactly when [n & (n - 1)] is zero. *)
Definition valid_icon_size (size : Z) : bool :=
  (Z.land size (size - 1) =? 0) && (16 <=? size) && (size <=? 4096).
End utils.

(** The spec's words for a valid size, to compare with the test above. *)
Definition power_of_two_in_range (size : Z) : Prop :=
  (exists k : Z, 0 <= k /\ size = 2 ^ k) /\ 16 <= size <= 4096.

Definition size_message : message :=
  [Lit "size must be a power of 2 between 16 and 4096"].

(** [format is not None and format not in formats]. *)
Definition given_and_not_in (format : option string) (formats : gset string) : bool :=
  match format with
  | None => false
  | Some f => negb (bool_decide (f ∈ formats))
  end.

(** [format == "gif"]. *)
Definition is_gif (format : option string) : bool :=
  bool_decide (format = Some "gif").

(** [format = 'gif' if animated else static_format], when [format is None]. *)
Definition resolve_format (format : option string) (animated : bool)
    (static_format : string) : string :=
  match format with
  | Some f => f
  | None => if animated then "gif" else static_format
  end.

(** ** The factories *)

Definition _from_avatar (state : option ConnectionState) (user : User.t)
    (format : option string) (static_format : string) (size : Z) : result Asset :=
  if negb (utils.valid_icon_size size) then
    Raise (InvalidArgument size_message)
  else if given_and_not_in format VALID_AVATAR_FORMATS then
    Raise (InvalidArgument
             [Lit "format must be None or one of "; ReprSet VALID_AVATAR_FORMATS])
  else if is_gif format && negb (User.is_avatar_animated user) then
    Raise (InvalidArgument [Lit "non animated avatars do not support gif format"])
  else if negb (bool_decide (static_format ∈ VALID_STATIC_FORMATS)) then
    Raise (InvalidArgument
             [Lit "static_format must be one of "; ReprSet VALID_STATIC_FORMATS])
  else
    match User.avatar user with
    | None => Return (User.default_avatar_url user)
    | Some avatar =>
        let format :=
          resolve_format format (User.is_avatar_animated user) static_format in
        Return (cls state (Some ("/avatars/" +:+ str (User.id user) +:+ "/"
                                   +:+ avatar +:+ "." +:+ format
                                   +:+ "?size=" +:+ str size)))
    end.

Definition _from_icon (state : option ConnectionState) (object : IconObject.t)
    (path : string) (format : string) (size : Z) : result Asset :=
  match IconObject.icon object with
  | None => Return (cls state None)
  | Some icon =>
      if negb (utils.valid_icon_size size) then
        Raise (InvalidArgument size_message)
      else if negb (bool_decide (format ∈ VALID_STATIC_FORMATS)) then
        Raise (InvalidArgument
                 [Lit "format must be None or one of "; ReprSet VALID_STATIC_FORMATS])
      else
        Return (cls state (Some ("/" +:+ path +:+ "-icons/"
                                   +:+ str (IconObject.id object) +:+ "/"
                                   +:+ icon +:+ "." +:+ format
                                   +:+ "?size=" +:+ str size)))
  end.

Definition _from_cover_image (state : option ConnectionState) (obj : CoverObject.t)
    (format : string) (size : Z) : result Asset :=
  match CoverObject.cover_image obj with
  | None => Return (cls state None)
  | Some cover_image =>
      if negb (utils.valid_icon_size size) then
        Raise (InvalidArgument size_message)
      else if negb (bool_decide (format ∈ VALID_STATIC_FORMATS)) then
        Raise (InvalidArgument
                 [Lit "format must be None or one of "; ReprSet VALID_STATIC_FORMATS])
      else
        Return (cls state (Some ("/app-assets/" +:+ str (CoverObject.id obj)
                                   +:+ "/store/" +:+ cover_image +:+ "."
                                   +:+ format +:+ "?size=" +:+ str size)))
  end.

Definition _from_guild_image (state : option ConnectionState) (id : Z)
    (hash : option string) (key : string) (format : string) (size : Z)
    : result Asset :=
  if negb (utils.valid_icon_size size) then
    Raise (InvalidArgument size_message)
  else if negb (bool_decide (format ∈ VALID_STATIC_FORMATS)) then
    Raise (InvalidArgument
             [Lit "format must be one of "; ReprSet VALID_STATIC_FORMATS])
  else
    match hash with
    | None => Return (cls state None)
    | Some hash =>
        Return (cls state (Some ("/" +:+ key +:+ "/" +:+ str id +:+ "/"
                                   +:+ hash +:+ "." +:+ format
                                   +:+ "?size=" +:+ str size)))
    end.

Definition _from_guild_icon (state : option ConnectionState) (guild : Guild.t)
    (format : option string) (static_format : string) (size : Z) : result Asset :=
  if negb (utils.valid_icon_size size) then
    Raise (InvalidArgument size_message)
  else if given_and_not_in format VALID_AVATAR_FORMATS then
    Raise (InvalidArgument
             [Lit "format must be one of "; ReprSet VALID_AVATAR_FORMATS])
  else if is_gif format && negb (Guild.is_icon_animated guild) then
    Raise (InvalidArgument
             [Lit "non animated guild icons do not support gif format"])
  else if negb (bool_decide (static_format ∈ VALID_STATIC_FORMATS)) then
    Raise (InvalidArgument
             [Lit "static_format must be one of "; ReprSet VALID_STATIC_FORMATS])
  else
    match Guild.icon guild with
    | None => Return (cls state None)
    | Some icon =>
        let format :=
          resolve_format format (Guild.is_icon_animated guild) static_format in
        Return (cls state (Some ("/icons/" +:+ str (Guild.id guild) +:+ "/"
                                   +:+ icon +:+ "." +:+ format
                                   +:+ "?size=" +:+ str size)))
    end.

Definition _from_sticker_url (state : option ConnectionState)
    (sticker : Sticker.t) (size : Z) : result Asset :=
  if negb (utils.valid_icon_size size) then
    Raise (InvalidArgument size_message)
  else
    Return (cls state (Some ("/stickers/" +:+ str (Sticker.id sticker) +:+ "/"
                               +:+ Sticker.image sticker +:+ ".png?size="
                               +:+ str size))).

Definition _from_emoji (state : option ConnectionState) (emoji : Emoji.t)
    (format : option string) (static_format : string) : result Asset :=
  if given_and_not_in format VALID_AVATAR_FORMATS then
    Raise (InvalidArgument
             [Lit "format must be None or one of "; ReprSet VALID_AVATAR_FORMATS])
  else if is_gif format && negb (Emoji.animated emoji) then
    Raise (InvalidArgument [Lit "non animated emoji's do not support gif format"])
  else if negb (bool_decide (static_format ∈ VALID_STATIC_FORMATS)) then
    Raise (InvalidArgument
             [Lit "static_format must be one of "; ReprSet VALID_STATIC_FORMATS])
  else
    let format := resolve_format format (Emoji.animated emoji) static_format in
    Return (cls state (Some ("/emojis/" +:+ str (Emoji.id emoji) +:+ "."
                               +:+ format))).

(** ** Conversions and comparisons *)

(** [self.BASE + self._url if self._url is not None else ''] *)
Definition __str__ (self : Asset) : string :=
  match _url self with
  | Some url => BASE +:+ url
  | None => ""
  end.

(** Truth value of an optional string: [None] and [''] are falsy. *)
Definition truthy (o : option string) : bool :=
  match o with
  | None => false
  | Some s => negb (String.eqb s "")
  end.

(** [len(self.BASE + self._url)] when [self._url] is truthy, else [0]. *)
Definition __len__ (self : Asset) : Z :=
  match _url self with
  | Some url =>
      if truthy (Some url) then Z.of_nat (String.length (BASE +:+ url)) else 0
  | None => 0
  end.

(** [self._url is not None] *)
Definition __bool__ (self : Asset) : bool :=
  match _url self with
  | Some _ => true
  | None => false
  end.

(** The values [__eq__] may be handed as [other]. *)
Inductive value : Type :=
  | VNone
  | VBool (b : bool)
  | VInt (n : Z)
  | VStr (s : string)
  | VBytes (b : bytes)
  | VAsset (a : Asset).

Definition isinstance_Asset (v : value) : bool :=
  match v with VAsset _ => true | _ => false end.

(** [isinstance(other, Asset) and self._url == other._url] *)
Definition __eq__ (self : Asset) (other : value) : bool :=
  match other with
  | VAsset other => bool_decide (_url self = _url other)
  | _ => false
  end.

(** [not self.__eq__(other)] *)
Definition __ne__ (self : Asset) (other : value) : bool :=
  negb (__eq__ self other).

Section Hashing.
(** The interpreter's [hash()] on an optional string. *)
Variable hash : option string -> Z.

Definition __hash__ (self : Asset) : Z := hash (_url self).
End Hashing.

(** ** The world of [read] and [save] *)

(** An [io.IOBase] object as [save] meets it: what its [writable()] reports,
    and what its [write(data)] and [seek(offset)] return or raise.  A binary
    buffered stream returns the number of bytes it was given; a text stream
    raises on bytes, a raw stream may take fewer, a pipe cannot seek.  What
    the stream does with the bytes is left to the io library: the calls made
    on it are what the trace records. *)
Record stream : Type := mkStream {
  writable : bool;
  write : bytes -> result Z;
  seek : nat -> result Z
}.

(** What [save] may be given as [fp]: a path, or a reference to an object.
    The object is an [io.IOBase] instance when the world holds a stream at
    that reference. *)
Inductive fp_value : Type :=
  | FpPath (p : string)
  | FpObject (ref : nat).

(** The calls that leave the module, in the order they are made. *)
Inductive event : Type :=
  | CdnGet (url : string)
  | SinkWrite (ref : nat) (data : bytes)
  | SinkSeek (ref : nat) (offset : nat)
  | OpenFile (fp : fp_value) (mode : string)
  | FileWrite (p : string) (data : bytes)
  | FileClose (p : string).

(** The world outside the module: the calls made so far, the stream objects
    there are, and what the operating system answers: [unwritable] holds the
    arguments on which [open(path, 'wb')] raises, [write_fails] those whose
    opened file raises when written to. *)
Record World : Type := mkWorld {
  trace : list event;
  streams : gmap nat stream;
  unwritable : gset string;
  write_fails : gset string
}.

Definition log (e : event) (w : World) : World :=
  mkWorld (trace w ++ [e])%list (streams w) (unwritable w) (write_fails w).

(** Computations that change the world and may raise. *)
Definition M (A : Type) : Type := World -> World * result A.

Definition ret {A} (a : A) : M A := fun w => (w, Return a).

Definition raise {A} (e : exn) : M A := fun w => (w, Raise e).

Definition bind {A B} (m : M A) (k : A -> M B) : M B :=
  fun w =>
    match m w with
    | (w', Return a) => k a w'
    | (w', Raise e) => (w', Raise e)
    end.

Notation "'let*' x ':=' m 'in' k" := (bind m (fun x => k))
  (at level 10, x name, m at level 100, k at level 200).

(** [await state.http.get_from_cdn(url)] *)
Definition await_get_from_cdn (state : ConnectionState) (url : string) : M bytes :=
  fun w => (log (CdnGet url) w, get_from_cdn (http state) url).

(** [isinstance(fp, io.IOBase)], giving the stream when it holds. *)
Definition as_IOBase (fp : fp_value) (w : World) : option (nat * stream) :=
  match fp with
  | FpObject ref => (fun s => (ref, s)) <$> streams w !! ref
  | FpPath _ => None
  end.

(** [fp.write(data)]: the call is made, and returns or raises what the
    stream says. *)
Definition fp_write (ref : nat) (s : stream) (data : bytes) : M Z :=
  fun w => (log (SinkWrite ref data) w, write s data).

(** [fp.seek(offset)] *)
Definition fp_seek (ref : nat) (s : stream) (offset : nat) : M Z :=
  fun w => (log (SinkSeek ref offset) w, seek s offset).

(** [open(fp, 'wb')]: only a path can be opened, and not every path. *)
Definition open_wb (fp : fp_value) : M string :=
  fun w =>
    let w := log (OpenFile fp "wb") w in
    match fp with
    | FpObject _ =>
        (w, Raise (TypeError [Lit "expected str, bytes or os.PathLike object"]))
    | FpPath p =>
        if bool_decide (p ∈ unwritable w) then
          (w, Raise (OSError [Lit "cannot open file for writing"]))
        else (w, Return p)
    end.

(** [f.write(data)] on the buffered binary file opened at [p]: it returns the
    number of bytes it was given, or raises. *)
Definition file_write (p : string) (data : bytes) : M Z :=
  fun w =>
    let w := log (FileWrite p data) w in
    if bool_decide (p ∈ write_fails w) then
      (w, Raise (OSError [Lit "cannot write to file"]))
    else (w, Return (Z.of_nat (length data))).

Definition file_close (p : string) (w : World) : World := log (FileClose p) w.

(** [with open(fp, 'wb') as f: body]: the file is closed however the body
    ends. *)
Definition with_open_wb {A} (fp : fp_value) (body : string -> M A) : M A :=
  fun w =>
    match open_wb fp w with
    | (w1, Raise e) => (w1, Raise e)
    | (w1, Return f) =>
        let (w2, r) := body f w1 in (file_close f w2, r)
    end.

(** ** [read] and [save] *)

Definition read (self : Asset) : M bytes :=
  match _url self with
  | Some url =>
      if negb (truthy (Some url)) then
        raise (DiscordException [Lit "Invalid asset (no URL provided)"])
      else
        match _state self with
        | None =>
            raise (DiscordException
                     [Lit "Invalid state (no ConnectionState provided)"])
        | Some state => await_get_from_cdn state (BASE +:+ url)
        end
  | None => raise (DiscordException [Lit "Invalid asset (no URL provided)"])
  end.

(** [isinstance(fp, io.IOBase) and fp.writable()], giving the sink when it
    holds. *)
Definition writable_sink (fp : fp_value) (w : World) : option (nat * stream) :=
  match as_IOBase fp w with
  | Some (ref, s) => if writable s then Some (ref, s) else None
  | None => None
  end.

Definition save (self : Asset) (fp : fp_value) (seek_begin : bool) : M Z :=
  let* data := read self in
  fun w =>
    match writable_sink fp w with
    | Some (ref, s) =>
        (let* written := fp_write ref s data in
         if seek_begin then (let* _ := fp_seek ref s 0 in ret written)
         else ret written) w
    | None => with_open_wb fp (fun f => file_write f data) w
    end.

(** ** Vocabulary of the statements *)

(** The nine sizes the size test lets through. *)
Definition valid_sizes : list Z := [16; 32; 64; 128; 256; 512; 1024; 2048; 4096].

(** What the factories with a [format=None] default accept: a requested
    format is one of the avatar formats, gif only for an animated source, and
    the static format is a static one. *)
Definition format_request_ok (format : option string) (animated : bool)
    (static_format : string) : Prop :=
  (forall f, format = Some f -> f ∈ VALID_AVATAR_FORMATS) /\
  (format = Some "gif" -> animated = true) /\
  static_format ∈ VALID_STATIC_FORMATS.

(** The spec's "non-empty" path: present and not the empty string. *)
Definition url_nonempty (self : Asset) : Prop :=
  exists url, _url self = Some url /\ url <> "".

(** The examples of the spec. *)
Definition example_user (default : Asset) : User.t :=
  {| User.id := 123; User.avatar := Some "abc";
     User.is_avatar_animated := false; User.default_avatar_url := default |}.

Definition example_emoji : Emoji.t := {| Emoji.id := 55; Emoji.animated := true |}.

Definition example_animated_user (default : Asset) : User.t :=
  {| User.id := 123; User.avatar := Some "a_abc";
     User.is_avatar_animated := true; User.default_avatar_url := default |}.

(** The events [save] adds after [read] when it writes to a sink. *)
Definition sink_events (ref : nat) (data : bytes) (seek_begin : bool) : list event :=
  SinkWrite ref data :: (if seek_begin then [SinkSeek ref 0%nat] else []).

(** The events [save] adds after [read] when it writes to the file at [p]. *)
Definition file_events (p : string) (data : bytes) : list event :=
  [OpenFile (FpPath p) "wb"; FileWrite p data; FileClose p].

Definition is_sink_event (e : event) : bool :=
  match e with
  | SinkWrite _ _ | SinkSeek _ _ => true
  | _ => false
  end.

(** A connection whose CDN answers every URL with the same two bytes, and
    an asset on it. *)
Definition example_state : ConnectionState :=
  {| http := {| get_from_cdn := fun _ => Return [Byte.x01; Byte.x02] |} |}.

Definition example_asset : Asset := mkAsset (Some example_state) (Some "/emojis/55.gif").

(** A binary buffer, a stream opened for reading only, and a pipe, which
    takes bytes but cannot seek. *)
Definition example_buffer : stream :=
  mkStream true (fun data => Return (Z.of_nat (length data)))
    (fun offset => Return (Z.of_nat offset)).

Definition example_readonly : stream :=
  mkStream false (fun _ => Raise (OSError [Lit "not writable"]))
    (fun offset => Return (Z.of_nat offset)).

Definition example_pipe : stream :=
  mkStream true (fun data => Return (Z.of_nat (length data)))
    (fun _ => Raise (OSError [Lit "underlying stream is not seekable"])).

(** A world with these three streams in which the file "full.bin" can be
    opened but not written. *)
Definition example_world : World :=
  mkWorld []
    {[ 0%nat := example_buffer; 1%nat := example_readonly;
       2%nat := example_pipe ]}
    ∅ {[ "full.bin" ]}.

(** A call that returned. *)
Definition is_Return {A} (r : result A) : bool :=
  match r with Return _ => true | Raise _ => false end.

(** The path of the asset a factory call returned, or what it raised. *)
Definition returned_url (r : result Asset) : result (option string) :=
  match r with
  | Return a => Return (_url a)
  | Raise e => Raise e
  end.

(** The assets a factory builds on [state].  The avatar factory counts for
    users with an avatar: for the others it hands back the user's own
    default asset. *)
Inductive built (state : option ConnectionState) : Asset -> Prop :=
  | built_avatar user format static_format size a :
      User.avatar user <> None ->
      _from_avatar state user format static_format size = Return a ->
      built state a
  | built_icon object path format size a :
      _from_icon state object path format size = Return a -> built state a
  | built_cover_image obj format size a :
      _from_cover_image state obj format size = Return a -> built state a
  | built_guild_image id hash key format size a :
      _from_guild_image state id hash key format size = Return a ->
      built state a
  | built_guild_icon guild format static_format size a :
      _from_guild_icon state guild format static_format size = Return a ->
      built state a
  | built_sticker_url sticker size a :
      _from_sticker_url state sticker size = Return a -> built state a
  | built_emoji emoji format static_format a :
      _from_emoji state emoji format static_format = Return a ->
      built state a.

(** * Properties *)

(** ** Sizes and formats *)

Lemma valid_icon_size_range size :
  utils.valid_icon_size size = true -> 16 <= size <= 4096.
Proof.
  unfold utils.valid_icon_size.
  rewrite !andb_true_iff, !Z.leb_le. tauto.
Qed.

(** The bit test agrees with the list of the nine sizes on the whole range. *)
Lemma valid_icon_size_table :
  forallb (fun n => Bool.eqb (utils.valid_icon_size (Z.of_nat n))
                      (existsb (Z.eqb (Z.of_nat n)) valid_sizes))
          (seq 16 4081) = true.
Proof. vm_compute. reflexivity. Qed.

Lemma valid_icon_size_In size :
  utils.valid_icon_size size = true <-> In size valid_sizes.
Proof.
  split.
  - intros Hv. pose proof (valid_icon_size_range _ Hv) as Hr.
    pose proof valid_icon_size_table as Ht.
    rewrite forallb_forall in Ht.
    specialize (Ht (Z.to_nat size)).
    rewrite Z2Nat.id in Ht by lia.
    assert (Hin : In (Z.to_nat size) (seq 16 4081)) by (apply in_seq; lia).
    apply Ht in Hin. rewrite Hv in Hin.
    apply Bool.eqb_prop in Hin. symmetry in Hin.
    apply existsb_exists in Hin as (x & Hx & Heq).
    apply Z.eqb_eq in Heq. now subst x.
  - intros Hin. simpl in Hin.
    repeat (destruct Hin as [<- | Hin]; [reflexivity |]). contradiction.
Qed.

(** The size test is the spec's "power of two within [16, 4096]". *)
Lemma valid_icon_size_spec size :
  utils.valid_icon_size size = true <-> power_of_two_in_range size.
Proof.
  rewrite valid_icon_size_In. unfold power_of_two_in_range. split.
  - intros Hin. simpl in Hin.
    destruct Hin as [<- | [<- | [<- | [<- | [<- | [<- | [<- | [<- | [<- | []]]]]]]]]];
      (split; [| lia]).
    + exists 4; split; [lia | reflexivity].
    + exists 5; split; [lia | reflexivity].
    + exists 6; split; [lia | reflexivity].
    + exists 7; split; [lia | reflexivity].
    + exists 8; split; [lia | reflexivity].
    + exists 9; split; [lia | reflexivity].
    + exists 10; split; [lia | reflexivity].
    + exists 11; split; [lia | reflexivity].
    + exists 12; split; [lia | reflexivity].
  - intros [(k & Hk & ->) [Hlo Hhi]].
    assert (Hk4 : 4 <= k).
    { destruct (Z_lt_le_dec k 4) as [Hlt | ]; [| assumption].
      assert (2 ^ k <= 2 ^ 3) by (apply Z.pow_le_mono_r; lia).
      change (2 ^ 3) with 8 in *. lia. }
    assert (Hk12 : k <= 12).
    { destruct (Z_lt_le_dec 12 k) as [Hlt | ]; [| assumption].
      assert (2 ^ 13 <= 2 ^ k) by (apply Z.pow_le_mono_r; lia).
      change (2 ^ 13) with 8192 in *. lia. }
    assert (Hcases : k = 4 \/ k = 5 \/ k = 6 \/ k = 7 \/ k = 8 \/ k = 9
                     \/ k = 10 \/ k = 11 \/ k = 12) by lia.
    simpl.
    destruct Hcases as [-> | [-> | [-> | [-> | [-> | [-> | [-> | [-> | ->]]]]]]]];
      change (2 ^ 4) with 16; change (2 ^ 5) with 32; change (2 ^ 6) with 64;
      change (2 ^ 7) with 128; change (2 ^ 8) with 256; change (2 ^ 9) with 512;
      change (2 ^ 10) with 1024; change (2 ^ 11) with 2048;
      change (2 ^ 12) with 4096; tauto.
Qed.

Lemma invalid_icon_size_spec size :
  utils.valid_icon_size size = false <-> ~ power_of_two_in_range size.
Proof.
  rewrite <- valid_icon_size_spec.
  destruct (utils.valid_icon_size size); split; congruence.
Qed.

Lemma static_formats_elem f :
  f ∈ VALID_STATIC_FORMATS <->
  f = "jpeg" \/ f = "jpg" \/ f = "webp" \/ f = "png".
Proof.
  unfold VALID_STATIC_FORMATS.
  rewrite !elem_of_union, !elem_of_singleton. tauto.
Qed.

Lemma avatar_formats_elem f :
  f ∈ VALID_AVATAR_FORMATS <-> f ∈ VALID_STATIC_FORMATS \/ f = "gif".
Proof.
  unfold VALID_AVATAR_FORMATS.
  rewrite elem_of_union, elem_of_singleton. tauto.
Qed.

Lemma gif_in_avatar_formats : "gif" ∈ VALID_AVATAR_FORMATS.
Proof. apply avatar_formats_elem. now right. Qed.

Lemma gif_not_static : "gif" ∉ VALID_STATIC_FORMATS.
Proof.
  rewrite static_formats_elem.
  intros [H | [H | [H | H]]]; discriminate H.
Qed.

Lemma format_request_ok_checks format animated static_format :
  format_request_ok format animated static_format ->
  given_and_not_in format VALID_AVATAR_FORMATS = false /\
  is_gif format && negb animated = false /\
  negb (bool_decide (static_format ∈ VALID_STATIC_FORMATS)) = false.
Proof.
  intros (Hf & Hg & Hs). repeat split.
  - destruct format as [f |]; simpl; [| reflexivity].
    rewrite bool_decide_eq_true_2; [reflexivity | now apply Hf].
  - unfold is_gif. case_bool_decide as Hgif; [| reflexivity].
    now rewrite (Hg Hgif).
  - now rewrite bool_decide_eq_true_2.
Qed.

Lemma is_gif_Some_gif : is_gif (Some "gif") = true.
Proof. reflexivity. Qed.

(** ** The factories on valid and on invalid arguments *)

Section Factories.
Variable state : option ConnectionState.

Lemma _from_avatar_valid user format static_format size :
  utils.valid_icon_size size = true ->
  format_request_ok format (User.is_avatar_animated user) static_format ->
  _from_avatar state user format static_format size =
    match User.avatar user with
    | None => Return (User.default_avatar_url user)
    | Some avatar =>
        Return (cls state
          (Some ("/avatars/" +:+ str (User.id user) +:+ "/" +:+ avatar +:+ "."
                   +:+ resolve_format format (User.is_avatar_animated user)
                         static_format
                   +:+ "?size=" +:+ str size)))
    end.
Proof.
  intros Hsize Hok.
  destruct (format_request_ok_checks _ _ _ Hok) as (H1 & H2 & H3).
  unfold _from_avatar. now rewrite Hsize, H1, H2, H3.
Qed.

Lemma _from_guild_icon_valid guild format static_format size :
  utils.valid_icon_size size = true ->
  format_request_ok format (Guild.is_icon_animated guild) static_format ->
  _from_guild_icon state guild format static_format size =
    match Guild.icon guild with
    | None => Return (cls state None)
    | Some icon =>
        Return (cls state
          (Some ("/icons/" +:+ str (Guild.id guild) +:+ "/" +:+ icon +:+ "."
                   +:+ resolve_format format (Guild.is_icon_animated guild)
                         static_format
                   +:+ "?size=" +:+ str size)))
    end.
Proof.
  intros Hsize Hok.
  destruct (format_request_ok_checks _ _ _ Hok) as (H1 & H2 & H3).
  unfold _from_guild_icon. now rewrite Hsize, H1, H2, H3.
Qed.

Lemma _from_emoji_valid emoji format static_format :
  format_request_ok format (Emoji.animated emoji) static_format ->
  _from_emoji state emoji format static_format =
    Return (cls state
      (Some ("/emojis/" +:+ str (Emoji.id emoji) +:+ "."
               +:+ resolve_format format (Emoji.animated emoji) static_format))).
Proof.
  intros Hok.
  destruct (format_request_ok_checks _ _ _ Hok) as (H1 & H2 & H3).
  unfold _from_emoji. now rewrite H1, H2, H3.
Qed.

Lemma _from_icon_valid object path format size :
  utils.valid_icon_size size = true ->
  format ∈ VALID_STATIC_FORMATS ->
  _from_icon state object path format size =
    match IconObject.icon object with
    | None => Return (cls state None)
    | Some icon =>
        Return (cls state
          (Some ("/" +:+ path +:+ "-icons/" +:+ str (IconObject.id object)
                   +:+ "/" +:+ icon +:+ "." +:+ format
                   +:+ "?size=" +:+ str size)))
    end.
Proof.
  intros Hsize Hf. unfold _from_icon.
  now rewrite Hsize, (bool_decide_eq_true_2 _ Hf).
Qed.

Lemma _from_cover_image_valid obj format size :
  utils.valid_icon_size size = true ->
  format ∈ VALID_STATIC_FORMATS ->
  _from_cover_image state obj format size =
    match CoverObject.cover_image obj with
    | None => Return (cls state None)
    | Some cover_image =>
        Return (cls state
          (Some ("/app-assets/" +:+ str (CoverObject.id obj) +:+ "/store/"
                   +:+ cover_image +:+ "." +:+ format
                   +:+ "?size=" +:+ str size)))
    end.
Proof.
  intros Hsize Hf. unfold _from_cover_image.
  now rewrite Hsize, (bool_decide_eq_true_2 _ Hf).
Qed.

Lemma _from_guild_image_valid id hash key format size :
  utils.valid_icon_size size = true ->
  format ∈ VALID_STATIC_FORMATS ->
  _from_guild_image state id hash key format size =
    match hash with
    | None => Return (cls state None)
    | Some hash =>
        Return (cls state
          (Some ("/" +:+ key +:+ "/" +:+ str id +:+ "/" +:+ hash +:+ "."
                   +:+ format +:+ "?size=" +:+ str size)))
    end.
Proof.
  intros Hsize Hf. unfold _from_guild_image.
  now rewrite Hsize, (bool_decide_eq_true_2 _ Hf).
Qed.

Lemma _from_sticker_url_valid sticker size :
  utils.valid_icon_size size = true ->
  _from_sticker_url state sticker size =
    Return (cls state
      (Some ("/stickers/" +:+ str (Sticker.id sticker) +:+ "/"
               +:+ Sticker.image sticker +:+ ".png?size=" +:+ str size))).
Proof. intros Hsize. unfold _from_sticker_url. now rewrite Hsize. Qed.

(** The four factories that test the size before anything else. *)
Lemma _from_avatar_bad_size user format static_format size :
  utils.valid_icon_size size = false ->
  _from_avatar state user format static_format size =
    Raise (InvalidArgument size_message).
Proof. intros H. unfold _from_avatar. now rewrite H. Qed.

Lemma _from_guild_image_bad_size id hash key format size :
  utils.valid_icon_size size = false ->
  _from_guild_image state id hash key format size =
    Raise (InvalidArgument size_message).
Proof. intros H. unfold _from_guild_image. now rewrite H. Qed.

Lemma _from_guild_icon_bad_size guild format static_format size :
  utils.valid_icon_size size = false ->
  _from_guild_icon state guild format static_format size =
    Raise (InvalidArgument size_message).
Proof. intros H. unfold _from_guild_icon. now rewrite H. Qed.

Lemma _from_sticker_url_bad_size sticker size :
  utils.valid_icon_size size = false ->
  _from_sticker_url state sticker size = Raise (InvalidArgument size_message).
Proof. intros H. unfold _from_sticker_url. now rewrite H. Qed.

(** The two factories that look at the image first test the size only when
    there is one. *)
Lemma _from_icon_bad_size object path format size :
  utils.valid_icon_size size = false ->
  _from_icon state object path format size =
    match IconObject.icon object with
    | None => Return (cls state None)
    | Some _ => Raise (InvalidArgument size_message)
    end.
Proof. intros H. unfold _from_icon. rewrite H. now destruct IconObject.icon. Qed.

Lemma _from_cover_image_bad_size obj format size :
  utils.valid_icon_size size = false ->
  _from_cover_image state obj format size =
    match CoverObject.cover_image obj with
    | None => Return (cls state None)
    | Some _ => Raise (InvalidArgument size_message)
    end.
Proof.
  intros H. unfold _from_cover_image. rewrite H.
  now destruct CoverObject.cover_image.
Qed.

(** A gif request for a source that is not animated: the size test or the
    gif test raises, both [InvalidArgument]. *)
Lemma _from_avatar_gif_static user static_format size :
  User.is_avatar_animated user = false ->
  is_InvalidArgument
    (_from_avatar state user (Some "gif") static_format size) = true.
Proof.
  intros Ha. unfold _from_avatar, given_and_not_in.
  destruct (utils.valid_icon_size size); cbn [negb]; [| reflexivity].
  rewrite (bool_decide_eq_true_2 _ gif_in_avatar_formats), is_gif_Some_gif, Ha.
  reflexivity.
Qed.

Lemma _from_guild_icon_gif_static guild static_format size :
  Guild.is_icon_animated guild = false ->
  is_InvalidArgument
    (_from_guild_icon state guild (Some "gif") static_format size) = true.
Proof.
  intros Ha. unfold _from_guild_icon, given_and_not_in.
  destruct (utils.valid_icon_size size); cbn [negb]; [| reflexivity].
  rewrite (bool_decide_eq_true_2 _ gif_in_avatar_formats), is_gif_Some_gif, Ha.
  reflexivity.
Qed.

Lemma _from_emoji_gif_static emoji static_format :
  Emoji.animated emoji = false ->
  _from_emoji state emoji (Some "gif") static_format =
    Raise (InvalidArgument
             [Lit "non animated emoji's do not support gif format"]).
Proof.
  intros Ha. unfold _from_emoji, given_and_not_in.
  rewrite (bool_decide_eq_true_2 _ gif_in_avatar_formats), is_gif_Some_gif, Ha.
  reflexivity.
Qed.

Lemma gif_request_ok static_format :
  static_format ∈ VALID_STATIC_FORMATS ->
  format_request_ok (Some "gif") true static_format.
Proof.
  intros Hs. repeat split; [| assumption].
  intros f [= <-]. apply gif_in_avatar_formats.
Qed.

Lemma default_request_ok animated static_format :
  static_format ∈ VALID_STATIC_FORMATS ->
  format_request_ok None animated static_format.
Proof. intros Hs. repeat split; [discriminate | discriminate | assumption]. Qed.
End Factories.

(** ** The claims about the factories *)

(** C1.  On valid arguments every factory returns an asset whose path is the
    template of its kind, with the ids and the size in decimal; the format in
    it is the one asked for, and with none asked for it is gif for an
    animated source and the static format otherwise.  The avatar factory on user 123 with hash "abc", not animated,
    no format and size 256 gives "/avatars/123/abc.webp?size=256", whose full
    URL is "https://cdn.discordapp.com/avatars/123/abc.webp?size=256"; the
    emoji factory on the animated emoji 55 with no format gives
    "/emojis/55.gif", without a size. *)
Theorem factory_url_templates :
  (forall state user avatar format static_format size,
      power_of_two_in_range size ->
      format_request_ok format (User.is_avatar_animated user) static_format ->
      User.avatar user = Some avatar ->
      _from_avatar state user format static_format size =
        Return (mkAsset state
          (Some ("/avatars/" +:+ str (User.id user) +:+ "/" +:+ avatar +:+ "."
                   +:+ match format with
                       | Some f => f
                       | None =>
                           if User.is_avatar_animated user then "gif"
                           else static_format
                       end
                   +:+ "?size=" +:+ str size)))) /\
  (forall state object icon path format size,
      power_of_two_in_range size ->
      format ∈ VALID_STATIC_FORMATS ->
      IconObject.icon object = Some icon ->
      _from_icon state object path format size =
        Return (mkAsset state
          (Some ("/" +:+ path +:+ "-icons/" +:+ str (IconObject.id object)
                   +:+ "/" +:+ icon +:+ "." +:+ format
                   +:+ "?size=" +:+ str size)))) /\
  (forall state obj cover_image format size,
      power_of_two_in_range size ->
      format ∈ VALID_STATIC_FORMATS ->
      CoverObject.cover_image obj = Some cover_image ->
      _from_cover_image state obj format size =
        Return (mkAsset state
          (Some ("/app-assets/" +:+ str (CoverObject.id obj) +:+ "/store/"
                   +:+ cover_image +:+ "." +:+ format
                   +:+ "?size=" +:+ str size)))) /\
  (forall state id hash key format size,
      power_of_two_in_range size ->
      format ∈ VALID_STATIC_FORMATS ->
      _from_guild_image state id (Some hash) key format size =
        Return (mkAsset state
          (Some ("/" +:+ key +:+ "/" +:+ str id +:+ "/" +:+ hash +:+ "."
                   +:+ format +:+ "?size=" +:+ str size)))) /\
  (forall state guild icon format static_format size,
      power_of_two_in_range size ->
      format_request_ok format (Guild.is_icon_animated guild) static_format ->
      Guild.icon guild = Some icon ->
      _from_guild_icon state guild format static_format size =
        Return (mkAsset state
          (Some ("/icons/" +:+ str (Guild.id guild) +:+ "/" +:+ icon +:+ "."
                   +:+ match format with
                       | Some f => f
                       | None =>
                           if Guild.is_icon_animated guild then "gif"
                           else static_format
                       end
                   +:+ "?size=" +:+ str size)))) /\
  (forall state sticker size,
      power_of_two_in_range size ->
      _from_sticker_url state sticker size =
        Return (mkAsset state
          (Some ("/stickers/" +:+ str (Sticker.id sticker) +:+ "/"
                   +:+ Sticker.image sticker +:+ ".png?size=" +:+ str size)))) /\
  (forall state emoji format static_format,
      format_request_ok format (Emoji.animated emoji) static_format ->
      _from_emoji state emoji format static_format =
        Return (mkAsset state
          (Some ("/emojis/" +:+ str (Emoji.id emoji) +:+ "."
                   +:+ match format with
                       | Some f => f
                       | None =>
                           if Emoji.animated emoji then "gif"
                           else static_format
                       end)))) /\
  (forall state default,
      _from_avatar state (example_user default) None "webp" 256 =
        Return (mkAsset state (Some "/avatars/123/abc.webp?size=256")) /\
      __str__ (mkAsset state (Some "/avatars/123/abc.webp?size=256")) =
        "https://cdn.discordapp.com/avatars/123/abc.webp?size=256") /\
  (forall state,
      _from_emoji state example_emoji None "png" =
        Return (mkAsset state (Some "/emojis/55.gif"))) /\
  (forall state default,
      _from_avatar state (example_user default) (Some "png") "webp" 256 =
        Return (mkAsset state (Some "/avatars/123/abc.png?size=256")) /\
      _from_avatar state (example_user default) None "jpeg" 4096 =
        Return (mkAsset state (Some "/avatars/123/abc.jpeg?size=4096")) /\
      _from_avatar state (example_animated_user default) None "webp" 16 =
        Return (mkAsset state (Some "/avatars/123/a_abc.gif?size=16")) /\
      _from_avatar state (example_animated_user default) (Some "png") "webp" 16 =
        Return (mkAsset state (Some "/avatars/123/a_abc.png?size=16"))) /\
  (forall state,
      _from_emoji state example_emoji (Some "png") "webp" =
        Return (mkAsset state (Some "/emojis/55.png")) /\
      _from_emoji state {| Emoji.id := 55; Emoji.animated := false |} None "png" =
        Return (mkAsset state (Some "/emojis/55.png")) /\
      _from_guild_icon state
        {| Guild.id := 7; Guild.icon := Some "a_f0"; Guild.is_icon_animated := true |}
        (Some "jpg") "webp" 64 =
        Return (mkAsset state (Some "/icons/7/a_f0.jpg?size=64")) /\
      _from_guild_icon state
        {| Guild.id := 7; Guild.icon := Some "f0"; Guild.is_icon_animated := false |}
        None "webp" 64 =
        Return (mkAsset state (Some "/icons/7/f0.webp?size=64")) /\
      _from_icon state {| IconObject.id := 7; IconObject.icon := Some "f0" |}
        "team" "png" 32 =
        Return (mkAsset state (Some "/team-icons/7/f0.png?size=32")) /\
      _from_cover_image state
        {| CoverObject.id := 7; CoverObject.cover_image := Some "f0" |} "jpg" 128 =
        Return (mkAsset state (Some "/app-assets/7/store/f0.jpg?size=128")) /\
      _from_guild_image state 7 (Some "f0") "banners" "png" 512 =
        Return (mkAsset state (Some "/banners/7/f0.png?size=512")) /\
      _from_sticker_url state {| Sticker.id := 7; Sticker.image := "f0" |} 1024 =
        Return (mkAsset state (Some "/stickers/7/f0.png?size=1024"))).
Proof.
  repeat apply conj.
  - intros * Hsize Hok Hav. apply valid_icon_size_spec in Hsize.
    rewrite (_from_avatar_valid _ _ _ _ _ Hsize Hok), Hav. reflexivity.
  - intros * Hsize Hf Hic. apply valid_icon_size_spec in Hsize.
    rewrite (_from_icon_valid _ _ _ _ _ Hsize Hf), Hic. reflexivity.
  - intros * Hsize Hf Hc. apply valid_icon_size_spec in Hsize.
    rewrite (_from_cover_image_valid _ _ _ _ Hsize Hf), Hc. reflexivity.
  - intros * Hsize Hf. apply valid_icon_size_spec in Hsize.
    rewrite (_from_guild_image_valid _ _ _ _ _ _ Hsize Hf). reflexivity.
  - intros * Hsize Hok Hic. apply valid_icon_size_spec in Hsize.
    rewrite (_from_guild_icon_valid _ _ _ _ _ Hsize Hok), Hic. reflexivity.
  - intros * Hsize. apply valid_icon_size_spec in Hsize.
    now rewrite (_from_sticker_url_valid _ _ _ Hsize).
  - intros * Hok. now rewrite (_from_emoji_valid _ _ _ _ Hok).
  - intros state default. split; vm_compute; reflexivity.
  - intros state. vm_compute. reflexivity.
  - intros state default. repeat split; vm_compute; reflexivity.
  - intros state. repeat split; vm_compute; reflexivity.
Qed.

Lemma factory_url_templates_witness :
  power_of_two_in_range 256 /\
  format_request_ok None false "webp" /\
  _from_avatar None (example_user (mkAsset None None)) None "webp" 256 =
    Return (mkAsset None (Some "/avatars/123/abc.webp?size=256")).
Proof.
  assert (Hs : power_of_two_in_range 256)
    by (apply valid_icon_size_spec; reflexivity).
  assert (Hok : format_request_ok None false "webp")
    by (apply default_request_ok, static_formats_elem; tauto).
  split; [exact Hs | split; [exact Hok |]].
  rewrite (proj1 factory_url_templates None (example_user (mkAsset None None))
             "abc" None "webp" 256 Hs Hok eq_refl).
  vm_compute. reflexivity.
Defined.

(** C2.  The size 17 is not a power of two, yet the icon and the cover-image
    factories return an asset without a path when the source has no image:
    they look at the image before they test the size.  The guild-image
    factory, which tests the size first, raises on the same call. *)
Theorem icon_and_cover_skip_size_check :
  ~ power_of_two_in_range 17 /\
  (forall state path format,
      _from_icon state {| IconObject.id := 1; IconObject.icon := None |}
        path format 17 = Return (mkAsset state None)) /\
  (forall state format,
      _from_cover_image state
        {| CoverObject.id := 1; CoverObject.cover_image := None |}
        format 17 = Return (mkAsset state None)) /\
  (forall state id key format,
      _from_guild_image state id None key format 17 =
        Raise (InvalidArgument size_message)).
Proof.
  split; [apply invalid_icon_size_spec; reflexivity |].
  split; [reflexivity |]. split; [reflexivity |].
  intros. now apply _from_guild_image_bad_size.
Qed.

(** C3.  With [format='gif'] and a source that is not animated, the avatar,
    guild-icon and emoji factories raise [InvalidArgument].  With an animated
    source, a valid size and static format and an image to point at, the same
    request returns an asset whose path has the gif format. *)
Theorem gif_needs_animated_source :
  (forall state user static_format size,
      User.is_avatar_animated user = false ->
      is_InvalidArgument
        (_from_avatar state user (Some "gif") static_format size) = true) /\
  (forall state guild static_format size,
      Guild.is_icon_animated guild = false ->
      is_InvalidArgument
        (_from_guild_icon state guild (Some "gif") static_format size) = true) /\
  (forall state emoji static_format,
      Emoji.animated emoji = false ->
      is_InvalidArgument
        (_from_emoji state emoji (Some "gif") static_format) = true) /\
  (forall state user avatar static_format size,
      User.is_avatar_animated user = true ->
      power_of_two_in_range size ->
      static_format ∈ VALID_STATIC_FORMATS ->
      User.avatar user = Some avatar ->
      _from_avatar state user (Some "gif") static_format size =
        Return (mkAsset state
          (Some ("/avatars/" +:+ str (User.id user) +:+ "/" +:+ avatar
                   +:+ ".gif?size=" +:+ str size)))) /\
  (forall state guild icon static_format size,
      Guild.is_icon_animated guild = true ->
      power_of_two_in_range size ->
      static_format ∈ VALID_STATIC_FORMATS ->
      Guild.icon guild = Some icon ->
      _from_guild_icon state guild (Some "gif") static_format size =
        Return (mkAsset state
          (Some ("/icons/" +:+ str (Guild.id guild) +:+ "/" +:+ icon
                   +:+ ".gif?size=" +:+ str size)))) /\
  (forall state emoji static_format,
      Emoji.animated emoji = true ->
      static_format ∈ VALID_STATIC_FORMATS ->
      _from_emoji state emoji (Some "gif") static_format =
        Return (mkAsset state
          (Some ("/emojis/" +:+ str (Emoji.id emoji) +:+ ".gif")))).
Proof.
  repeat apply conj.
  - intros. now apply _from_avatar_gif_static.
  - intros. now apply _from_guild_icon_gif_static.
  - intros * Ha. now rewrite _from_emoji_gif_static.
  - intros * Ha Hsize Hs Hav. apply valid_icon_size_spec in Hsize.
    rewrite (_from_avatar_valid state user (Some "gif") static_format size Hsize).
    + rewrite Hav. reflexivity.
    + rewrite Ha. now apply gif_request_ok.
  - intros * Ha Hsize Hs Hic. apply valid_icon_size_spec in Hsize.
    rewrite (_from_guild_icon_valid state guild (Some "gif") static_format size
               Hsize).
    + rewrite Hic. reflexivity.
    + rewrite Ha. now apply gif_request_ok.
  - intros * Ha Hs.
    rewrite (_from_emoji_valid state emoji (Some "gif") static_format).
    + reflexivity.
    + rewrite Ha. now apply gif_request_ok.
Qed.

Lemma gif_needs_animated_source_witness :
  is_InvalidArgument
    (_from_avatar None (example_user (mkAsset None None)) (Some "gif") "webp" 256)
    = true /\
  _from_emoji None example_emoji (Some "gif") "png" =
    Return (mkAsset None (Some "/emojis/55.gif")).
Proof.
  split.
  - apply (proj1 gif_needs_animated_source). reflexivity.
  - rewrite (proj2 (proj2 (proj2 (proj2 (proj2 gif_needs_animated_source))))
               None example_emoji "png" eq_refl).
    + vm_compute. reflexivity.
    + apply static_formats_elem. tauto.
Defined.

(** C7.  When the source has no image and the size and the format are valid,
    the icon, cover-image, guild-image and guild-icon factories return an
    asset without a path instead of raising; such an asset is falsy.  The
    avatar factory, on the same kind of call, returns the user's default
    avatar URL. *)
Theorem no_image_gives_absent_url :
  (forall state object path format size,
      power_of_two_in_range size ->
      format ∈ VALID_STATIC_FORMATS ->
      IconObject.icon object = None ->
      _from_icon state object path format size = Return (mkAsset state None)) /\
  (forall state obj format size,
      power_of_two_in_range size ->
      format ∈ VALID_STATIC_FORMATS ->
      CoverObject.cover_image obj = None ->
      _from_cover_image state obj format size = Return (mkAsset state None)) /\
  (forall state id key format size,
      power_of_two_in_range size ->
      format ∈ VALID_STATIC_FORMATS ->
      _from_guild_image state id None key format size =
        Return (mkAsset state None)) /\
  (forall state guild format static_format size,
      power_of_two_in_range size ->
      format_request_ok format (Guild.is_icon_animated guild) static_format ->
      Guild.icon guild = None ->
      _from_guild_icon state guild format static_format size =
        Return (mkAsset state None)) /\
  (forall state,
      __bool__ (mkAsset state None) = false /\
      __str__ (mkAsset state None) = "") /\
  (forall state user format static_format size,
      power_of_two_in_range size ->
      format_request_ok format (User.is_avatar_animated user) static_format ->
      User.avatar user = None ->
      _from_avatar state user format static_format size =
        Return (User.default_avatar_url user)).
Proof.
  repeat apply conj.
  - intros * Hsize Hf Hic. apply valid_icon_size_spec in Hsize.
    now rewrite (_from_icon_valid _ _ _ _ _ Hsize Hf), Hic.
  - intros * Hsize Hf Hc. apply valid_icon_size_spec in Hsize.
    now rewrite (_from_cover_image_valid _ _ _ _ Hsize Hf), Hc.
  - intros * Hsize Hf. apply valid_icon_size_spec in Hsize.
    now rewrite (_from_guild_image_valid _ _ _ _ _ _ Hsize Hf).
  - intros * Hsize Hok Hic. apply valid_icon_size_spec in Hsize.
    now rewrite (_from_guild_icon_valid _ _ _ _ _ Hsize Hok), Hic.
  - intros state. split; reflexivity.
  - intros * Hsize Hok Hav. apply valid_icon_size_spec in Hsize.
    now rewrite (_from_avatar_valid _ _ _ _ _ Hsize Hok), Hav.
Qed.

Lemma no_image_gives_absent_url_witness :
  power_of_two_in_range 1024 /\
  "webp" ∈ VALID_STATIC_FORMATS /\
  format_request_ok None false "webp" /\
  _from_icon None {| IconObject.id := 7; IconObject.icon := None |}
    "team" "webp" 1024 = Return (mkAsset None None) /\
  _from_avatar None
    {| User.id := 7; User.avatar := None; User.is_avatar_animated := false;
       User.default_avatar_url := mkAsset None (Some "/embed/avatars/2.png") |}
    None "webp" 1024 = Return (mkAsset None (Some "/embed/avatars/2.png")).
Proof.
  assert (Hs : power_of_two_in_range 1024)
    by (apply valid_icon_size_spec; reflexivity).
  assert (Hok : format_request_ok None false "webp")
    by (apply default_request_ok, static_formats_elem; tauto).
  assert (Hf : "webp" ∈ VALID_STATIC_FORMATS)
    by (apply static_formats_elem; tauto).
  split; [exact Hs |]. split; [exact Hf |]. split; [exact Hok |].
  split;
    [exact (proj1 no_image_gives_absent_url None
              {| IconObject.id := 7; IconObject.icon := None |}
              "team" "webp" 1024 Hs Hf eq_refl) |].
  apply (proj2 (proj2 (proj2 (proj2 (proj2 no_image_gives_absent_url)))) None
           {| User.id := 7; User.avatar := None; User.is_avatar_animated := false;
              User.default_avatar_url := mkAsset None (Some "/embed/avatars/2.png") |}
           None "webp" 1024 Hs Hok eq_refl).
Defined.

(** ** The claims about conversions and comparisons *)

(** C4.  Two assets are equal exactly when their paths are equal, whatever
    their states are, and assets with equal paths have equal hashes. *)
Theorem asset_equality_by_url (a b : Asset) :
  (__eq__ a (VAsset b) = true <-> _url a = _url b) /\
  (forall state1 state2 url,
      __eq__ (mkAsset state1 url) (VAsset (mkAsset state2 url)) = true) /\
  (forall hash : option string -> Z,
      _url a = _url b -> __hash__ hash a = __hash__ hash b).
Proof.
  split; [| split].
  - unfold __eq__. apply bool_decide_eq_true.
  - intros. unfold __eq__. now apply bool_decide_eq_true.
  - intros hash Heq. unfold __hash__. now rewrite Heq.
Qed.

Lemma asset_equality_by_url_witness :
  let state : ConnectionState :=
    {| http := {| get_from_cdn := fun _ => Return [] |} |} in
  let a := mkAsset (Some state) (Some "/emojis/55.gif") in
  let b := mkAsset None (Some "/emojis/55.gif") in
  _url a = _url b /\
  __eq__ a (VAsset b) = true /\
  __hash__ (fun o => Z.of_nat (String.length (default "" o))) a =
  __hash__ (fun o => Z.of_nat (String.length (default "" o))) b.
Proof.
  intros state a b.
  split; [reflexivity |]. split.
  - apply (proj1 (asset_equality_by_url a b)). reflexivity.
  - apply (proj2 (proj2 (asset_equality_by_url a b))). reflexivity.
Defined.

(** C5.  On an asset whose path is the empty string the code departs from
    the claim and from its own siblings: the path is not non-empty, [len] is
    0 and [read] finds no URL to fetch, yet [bool] is [True]. *)
Theorem empty_path_is_truthy (state : option ConnectionState) (w : World) :
  let a := mkAsset state (Some "") in
  ~ url_nonempty a /\
  __bool__ a = true /\
  __len__ a = 0 /\
  read a w =
    (w, Raise (DiscordException [Lit "Invalid asset (no URL provided)"])).
Proof.
  cbn zeta. split; [| repeat split].
  intros (url & Hurl & Hne). cbn in Hurl. injection Hurl as <-. now apply Hne.
Qed.

(** What [bool], [str] and [len] do on an absent and on a present path. *)
Lemma presence_string_length (a : Asset) :
  (__bool__ a = true <-> _url a <> None) /\
  (_url a = None -> __str__ a = "" /\ __len__ a = 0) /\
  (forall url, _url a = Some url ->
      __str__ a = "https://cdn.discordapp.com" +:+ url) /\
  (url_nonempty a -> __bool__ a = true).
Proof.
  destruct a as [state [url |]]; unfold __bool__, __str__, __len__; simpl.
  - split; [| split; [| split]].
    + split; [discriminate | reflexivity].
    + discriminate.
    + now intros ? [= <-].
    + reflexivity.
  - split; [| split; [| split]].
    + split; [discriminate | now intros H].
    + now split.
    + discriminate.
    + now intros (url & Hurl & _).
Qed.

(** C10.  Against a value that is not an asset, [==] is [False] and [!=] is
    [True]; [!=] is always the negation of [==].  Both are total: they return
    a boolean for every operand. *)
Theorem eq_against_other_values (a : Asset) (x : value) :
  (isinstance_Asset x = false -> __eq__ a x = false /\ __ne__ a x = true) /\
  __ne__ a x = negb (__eq__ a x).
Proof.
  split; [| reflexivity].
  intros Hx. unfold __ne__.
  destruct x; simpl in *; try discriminate; split; reflexivity.
Qed.

Lemma eq_against_other_values_witness :
  isinstance_Asset (VStr "/emojis/55.gif") = false /\
  __eq__ (mkAsset None (Some "/emojis/55.gif")) (VStr "/emojis/55.gif") = false /\
  __ne__ (mkAsset None (Some "/emojis/55.gif")) (VStr "/emojis/55.gif") = true.
Proof.
  split; [reflexivity |].
  apply (proj1 (eq_against_other_values (mkAsset None (Some "/emojis/55.gif"))
                  (VStr "/emojis/55.gif"))).
  reflexivity.
Defined.

(** ** [read] *)

(** The three ways [read] ends: no usable path, no state, or one request. *)
Lemma read_cases (a : Asset) (w : World) :
  (truthy (_url a) = false /\
   read a w = (w, Raise (DiscordException [Lit "Invalid asset (no URL provided)"])))
  \/
  (truthy (_url a) = true /\ _state a = None /\
   read a w =
     (w, Raise (DiscordException
                  [Lit "Invalid state (no ConnectionState provided)"])))
  \/
  (exists url state,
      _url a = Some url /\ truthy (_url a) = true /\ _state a = Some state /\
      read a w = (log (CdnGet (BASE +:+ url)) w,
                  get_from_cdn (http state) (BASE +:+ url))).
Proof.
  destruct a as [state [url |]]; unfold read; cbn [_url _state].
  - destruct (truthy (Some url)) eqn:Ht; cbn [negb].
    + destruct state as [state |].
      * right; right. exists url, state. repeat split.
      * right; left. repeat split.
    + left. split; reflexivity.
  - left. split; reflexivity.
Qed.

(** [read] makes no call but its request. *)
Lemma read_keeps_storage (a : Asset) (w : World) :
  streams (read a w).1 = streams w /\
  unwritable (read a w).1 = unwritable w /\
  write_fails (read a w).1 = write_fails w /\
  (trace (read a w).1 = trace w \/
   exists url, trace (read a w).1 = (trace w ++ [CdnGet url])%list).
Proof.
  destruct (read_cases a w) as [(_ & ->) | [(_ & _ & ->) | (url & st & _ & _ & _ & ->)]];
    cbn; repeat split; eauto.
Qed.

Lemma read_keeps_sink (a : Asset) (fp : fp_value) (w : World) :
  writable_sink fp (read a w).1 = writable_sink fp w.
Proof.
  unfold writable_sink, as_IOBase.
  now rewrite (proj1 (read_keeps_storage a w)).
Qed.

(** C6.  Without a path, or without a state, [read] raises
    [DiscordException] and leaves the world as it was: no request has been
    made.  The message tells the two causes apart.  A request is made only
    when the path and the state are both there, and then it is one GET of the
    full URL. *)
Theorem read_requires_url_and_state (a : Asset) (w : World) :
  (_url a = None ->
     read a w =
       (w, Raise (DiscordException [Lit "Invalid asset (no URL provided)"]))) /\
  (_state a = None ->
     exists msg, read a w = (w, Raise (DiscordException msg))) /\
  (_state a = None -> truthy (_url a) = true ->
     read a w =
       (w, Raise (DiscordException
                    [Lit "Invalid state (no ConnectionState provided)"]))) /\
  [Lit "Invalid asset (no URL provided)"] <>
    [Lit "Invalid state (no ConnectionState provided)"] /\
  (forall w' r, read a w = (w', r) -> trace w' <> trace w ->
     exists url state,
       _url a = Some url /\ _state a = Some state /\
       w' = log (CdnGet (BASE +:+ url)) w /\
       r = get_from_cdn (http state) (BASE +:+ url)) /\
  (forall url state,
     _url a = Some url -> url <> "" -> _state a = Some state ->
     read a w = (log (CdnGet (BASE +:+ url)) w,
                 get_from_cdn (http state) (BASE +:+ url))).
Proof.
  repeat apply conj.
  - intros Hurl. unfold read. now rewrite Hurl.
  - intros Hst.
    destruct (read_cases a w) as [(_ & ->) | [(_ & _ & ->) | (url & st & _ & _ & Hs & _)]];
      [eauto | eauto | congruence].
  - intros Hst Ht.
    destruct (read_cases a w) as [(Hf & _) | [(_ & _ & ->) | (url & st & _ & _ & Hs & _)]];
      [congruence | reflexivity | congruence].
  - discriminate.
  - intros w' r Hread Htrace.
    destruct (read_cases a w) as [(_ & H) | [(_ & _ & H) | (url & st & Hu & _ & Hs & H)]];
      rewrite H in Hread; injection Hread as <- <-.
    + now contradict Htrace.
    + now contradict Htrace.
    + now exists url, st.
  - intros url state Hurl Hne Hst.
    destruct (read_cases a w) as [(Hf & _) | [(_ & Hs & _) | (url' & st & Hu & _ & Hs & H)]].
    + rewrite Hurl in Hf. cbn in Hf. apply negb_false_iff, String.eqb_eq in Hf.
      contradiction.
    + congruence.
    + rewrite Hurl in Hu. injection Hu as <-.
      rewrite Hst in Hs. injection Hs as <-. exact H.
Qed.

Lemma read_requires_url_and_state_witness :
  _url (mkAsset None None) = None /\
  read (mkAsset None None) (mkWorld [] ∅ ∅ ∅) =
    (mkWorld [] ∅ ∅ ∅,
     Raise (DiscordException [Lit "Invalid asset (no URL provided)"])).
Proof.
  split; [reflexivity |].
  apply (proj1 (read_requires_url_and_state (mkAsset None None)
                  (mkWorld [] ∅ ∅ ∅))).
  reflexivity.
Defined.

(** ** [save] *)

Lemma save_unfold (a : Asset) (fp : fp_value) (seek_begin : bool) (w : World) :
  save a fp seek_begin w =
    match read a w with
    | (w1, Return data) =>
        match writable_sink fp w1 with
        | Some (ref, s) =>
            (let* written := fp_write ref s data in
             if seek_begin then (let* _ := fp_seek ref s 0 in ret written)
             else ret written) w1
        | None => with_open_wb fp (fun f => file_write f data) w1
        end
    | (w1, Raise e) => (w1, Raise e)
    end.
Proof. unfold save, bind. now destruct (read a w) as [w1 [data | e]]. Qed.

(** The sink branch: one write of all the bytes, then the seek if it is
    asked for; the first exception ends the branch. *)
Lemma sink_branch (ref : nat) (s : stream) (data : bytes) (seek_begin : bool)
    (w1 : World) :
  (let* written := fp_write ref s data in
   if seek_begin then (let* _ := fp_seek ref s 0 in ret written)
   else ret written) w1 =
    match write s data with
    | Raise e => (log (SinkWrite ref data) w1, Raise e)
    | Return n =>
        if seek_begin then
          (log (SinkSeek ref 0) (log (SinkWrite ref data) w1),
           match seek s 0 with
           | Return _ => Return n
           | Raise e => Raise e
           end)
        else (log (SinkWrite ref data) w1, Return n)
    end.
Proof.
  unfold bind, fp_write, fp_seek, ret.
  destruct (write s data) as [n | e]; [| reflexivity].
  destruct seek_begin; [| reflexivity]. now destruct (seek s 0).
Qed.

Lemma sink_branch_trace (ref : nat) (s : stream) (data : bytes)
    (seek_begin : bool) (w1 : World) :
  exists rest,
    trace ((let* written := fp_write ref s data in
            if seek_begin then (let* _ := fp_seek ref s 0 in ret written)
            else ret written) w1).1 =
      (trace w1 ++ SinkWrite ref data :: rest)%list /\
    (rest = [] \/ rest = [SinkSeek ref 0%nat]) /\
    (forall n, write s data = Return n ->
       SinkWrite ref data :: rest = sink_events ref data seek_begin).
Proof.
  rewrite sink_branch. unfold sink_events.
  destruct (write s data) as [n | e].
  - destruct seek_begin; cbn [fst log trace].
    + exists [SinkSeek ref 0%nat]. rewrite <- app_assoc. auto.
    + exists []. auto.
  - exists []. cbn [fst log trace]. repeat split; [now left | discriminate].
Qed.

(** The file branch on a path that can be opened: the file is opened,
    written once and closed, whether the write raises or not. *)
Lemma file_branch (p : string) (data : bytes) (w1 : World) :
  p ∉ unwritable w1 ->
  with_open_wb (FpPath p) (fun f => file_write f data) w1 =
    (log (FileClose p) (log (FileWrite p data) (log (OpenFile (FpPath p) "wb") w1)),
     if bool_decide (p ∈ write_fails w1) then
       Raise (OSError [Lit "cannot write to file"])
     else Return (Z.of_nat (length data))).
Proof.
  intros Hp.
  unfold with_open_wb, open_wb, file_write, file_close;
    cbn [log streams trace unwritable write_fails].
  rewrite (bool_decide_eq_false_2 _ Hp).
  change (write_fails (log (OpenFile (FpPath p) "wb") w1)) with (write_fails w1).
  now destruct (bool_decide (p ∈ write_fails w1)).
Qed.

Lemma file_branch_events (p : string) (data : bytes) (w1 : World) :
  trace (log (FileClose p)
           (log (FileWrite p data) (log (OpenFile (FpPath p) "wb") w1))) =
    (trace w1 ++ file_events p data)%list.
Proof. unfold file_events. cbn [log trace]. now rewrite <- !app_assoc. Qed.

(** The file branch on anything else raises once [open] has been called. *)
Lemma file_branch_object (ref : nat) (data : bytes) (w1 : World) :
  with_open_wb (FpObject ref) (fun f => file_write f data) w1 =
    (log (OpenFile (FpObject ref) "wb") w1,
     Raise (TypeError [Lit "expected str, bytes or os.PathLike object"])).
Proof. reflexivity. Qed.

Lemma file_branch_unwritable (p : string) (data : bytes) (w1 : World) :
  p ∈ unwritable w1 ->
  with_open_wb (FpPath p) (fun f => file_write f data) w1 =
    (log (OpenFile (FpPath p) "wb") w1,
     Raise (OSError [Lit "cannot open file for writing"])).
Proof.
  intros Hp. unfold with_open_wb, open_wb; cbn [log unwritable].
  now rewrite (bool_decide_eq_true_2 _ Hp).
Qed.

Lemma writable_sink_iff (fp : fp_value) (w : World) (ref : nat) (s : stream) :
  writable_sink fp w = Some (ref, s) <->
  as_IOBase fp w = Some (ref, s) /\ writable s = true.
Proof.
  unfold writable_sink.
  destruct (as_IOBase fp w) as [[r s0] |]; [| split; [discriminate | now intros []]].
  destruct (writable s0) eqn:Hw; split.
  - intros [= <- <-]. auto.
  - now intros [[= <- <-] _].
  - discriminate.
  - intros [[= <- <-] Hw']. congruence.
Qed.

Lemma as_IOBase_Some (fp : fp_value) (w : World) (ref : nat) (s : stream) :
  as_IOBase fp w = Some (ref, s) <->
  fp = FpObject ref /\ streams w !! ref = Some s.
Proof.
  unfold as_IOBase. destruct fp as [p | r].
  - split; [discriminate | now intros []].
  - destruct (streams w !! r) as [s0 |] eqn:Hs; cbn; split.
    + intros [= <- <-]. auto.
    + intros [[= <-] Hs']. congruence.
    + discriminate.
    + intros [[= <-] Hs']. congruence.
Qed.

(** What the file branch adds to the trace: the [open] call first, and no
    call on a sink. *)
Lemma file_branch_trace (fp : fp_value) (data : bytes) (w1 : World) :
  exists rest,
    trace (with_open_wb fp (fun f => file_write f data) w1).1 =
      (trace w1 ++ OpenFile fp "wb" :: rest)%list /\
    forallb (fun e => negb (is_sink_event e)) rest = true.
Proof.
  destruct fp as [p | ref].
  - destruct (decide (p ∈ unwritable w1)) as [Hp | Hp].
    + rewrite (file_branch_unwritable p data w1 Hp). now exists [].
    + rewrite (file_branch p data w1 Hp). cbn [fst].
      rewrite file_branch_events.
      exists [FileWrite p data; FileClose p]. now split.
  - rewrite file_branch_object. now exists [].
Qed.



(** C9.  [save] takes the destination for a sink exactly when it is an
    [io.IOBase] instance whose [writable()] is true.  In every other case the
    destination goes to [open(fp, 'wb')] and no call is made on a sink; in
    particular an [io.IOBase] instance that is not writable is handed to
    [open], which is where the call then fails, with its stream untouched.
    A writable sink gets the write, then at most the seek, and no [open]. *)
Theorem save_sink_needs_writable_iobase
    (a : Asset) (fp : fp_value) (seek_begin : bool) (w : World) :
  (forall ref s,
      writable_sink fp w = Some (ref, s) <->
      as_IOBase fp w = Some (ref, s) /\ writable s = true) /\
  (forall w1 data,
      read a w = (w1, Return data) ->
      writable_sink fp w = None ->
      save a fp seek_begin w = with_open_wb fp (fun f => file_write f data) w1 /\
      exists rest,
        trace (save a fp seek_begin w).1 =
          (trace w1 ++ OpenFile fp "wb" :: rest)%list /\
        forallb (fun e => negb (is_sink_event e)) rest = true) /\
  (forall w1 data ref s,
      read a w = (w1, Return data) ->
      as_IOBase fp w = Some (ref, s) ->
      writable s = false ->
      save a fp seek_begin w =
        (log (OpenFile fp "wb") w1,
         Raise (TypeError [Lit "expected str, bytes or os.PathLike object"])) /\
      streams (log (OpenFile fp "wb") w1) !! ref = Some s) /\
  (forall w1 data ref s,
      read a w = (w1, Return data) ->
      writable_sink fp w = Some (ref, s) ->
      (exists rest,
          trace (save a fp seek_begin w).1 =
            (trace w1 ++ SinkWrite ref data :: rest)%list /\
          forallb is_sink_event rest = true) /\
      (forall n, write s data = Return n ->
          trace (save a fp seek_begin w).1 =
            (trace w1 ++ sink_events ref data seek_begin)%list)).
Proof.
  pose proof (read_keeps_storage a w) as (Hstr & _).
  pose proof (read_keeps_sink a fp w) as Hsink.
  split; [| split; [| split]].
  - intros ref s. apply writable_sink_iff.
  - intros w1 data Hread Hnone. rewrite save_unfold, Hread in *.
    cbn in Hsink. rewrite Hsink, Hnone.
    split; [reflexivity | apply file_branch_trace].
  - intros w1 data ref s Hread Hio Hw. rewrite save_unfold, Hread in *.
    cbn in Hsink, Hstr.
    assert (Hnone : writable_sink fp w = None).
    { unfold writable_sink. now rewrite Hio, Hw. }
    apply as_IOBase_Some in Hio as [-> Hlook].
    rewrite Hsink, Hnone, file_branch_object. split; [reflexivity |].
    cbn [log streams]. congruence.
  - intros w1 data ref s Hread Hws. rewrite save_unfold, Hread in *.
    cbn in Hsink. rewrite Hsink, Hws.
    destruct (sink_branch_trace ref s data seek_begin w1)
      as (rest & Ht & Hrest & Hev).
    split.
    + exists rest. split; [exact Ht |].
      now destruct Hrest as [-> | ->].
    + intros n Hwr. rewrite Ht. now rewrite (Hev n Hwr).
Qed.

Lemma save_sink_needs_writable_iobase_witness :
  let w1 := log (CdnGet "https://cdn.discordapp.com/emojis/55.gif") example_world in
  read example_asset example_world = (w1, Return [Byte.x01; Byte.x02]) /\
  as_IOBase (FpObject 1) example_world = Some (1%nat, example_readonly) /\
  writable example_readonly = false /\
  save example_asset (FpObject 1) true example_world =
    (log (OpenFile (FpObject 1) "wb") w1,
     Raise (TypeError [Lit "expected str, bytes or os.PathLike object"])) /\
  streams (log (OpenFile (FpObject 1) "wb") w1) !! 1%nat =
    Some example_readonly.
Proof.
  intros w1.
  assert (Hread : read example_asset example_world = (w1, Return [Byte.x01; Byte.x02]))
    by reflexivity.
  assert (Hio : as_IOBase (FpObject 1) example_world
                = Some (1%nat, example_readonly))
    by (vm_compute; reflexivity).
  split; [exact Hread |]. split; [exact Hio |]. split; [reflexivity |].
  exact (proj1 (proj2 (proj2
           (save_sink_needs_writable_iobase example_asset (FpObject 1) true
              example_world)))
           w1 [Byte.x01; Byte.x02] 1%nat example_readonly
           Hread Hio eq_refl).
Defined.

(** * Further properties *)

(** ** Which calls of the factories return *)

(** Splits the goal along the tests and the image lookups of a factory. *)
Ltac factory_cases :=
  repeat match goal with
    | |- context [if ?b then _ else _] => destruct b eqn:?
    | |- context [match ?o with Some _ => _ | None => _ end] => destruct o eqn:?
    end.

Lemma format_request_ok_iff format animated static_format :
  format_request_ok format animated static_format <->
  given_and_not_in format VALID_AVATAR_FORMATS = false /\
  is_gif format && negb animated = false /\
  negb (bool_decide (static_format ∈ VALID_STATIC_FORMATS)) = false.
Proof.
  split; [apply format_request_ok_checks |].
  intros (H1 & H2 & H3). repeat split.
  - intros f ->. cbn in H1. apply negb_false_iff in H1.
    now apply bool_decide_eq_true in H1.
  - intros ->. rewrite is_gif_Some_gif in H2. cbn in H2.
    now apply negb_false_iff in H2.
  - apply negb_false_iff in H3. now apply bool_decide_eq_true in H3.
Qed.

(** X2.  The avatar, guild-icon and emoji factories return exactly on the calls
    whose size is a power of two in range (where there is a size) and whose
    format request is acceptable; whether the source has an image plays no
    part. *)
Theorem animated_factories_return_iff (state : option ConnectionState) :
  (forall user format static_format size,
      is_Return (_from_avatar state user format static_format size) = true <->
      power_of_two_in_range size /\
      format_request_ok format (User.is_avatar_animated user) static_format) /\
  (forall guild format static_format size,
      is_Return (_from_guild_icon state guild format static_format size) = true <->
      power_of_two_in_range size /\
      format_request_ok format (Guild.is_icon_animated guild) static_format) /\
  (forall emoji format static_format,
      is_Return (_from_emoji state emoji format static_format) = true <->
      format_request_ok format (Emoji.animated emoji) static_format).
Proof.
  split; [| split]; intros.
  - rewrite <- valid_icon_size_spec, format_request_ok_iff. split.
    + unfold _from_avatar.
      destruct (utils.valid_icon_size size); cbn [negb]; [| discriminate].
      destruct (given_and_not_in _ _); [discriminate |].
      destruct (is_gif format && _); [discriminate |].
      destruct (negb (bool_decide _)); [discriminate |]. auto.
    + intros (Hs & Hok). apply format_request_ok_iff in Hok.
      rewrite (_from_avatar_valid _ _ _ _ _ Hs Hok).
      now destruct (User.avatar user).
  - rewrite <- valid_icon_size_spec, format_request_ok_iff. split.
    + unfold _from_guild_icon.
      destruct (utils.valid_icon_size size); cbn [negb]; [| discriminate].
      destruct (given_and_not_in _ _); [discriminate |].
      destruct (is_gif format && _); [discriminate |].
      destruct (negb (bool_decide _)); [discriminate |]. auto.
    + intros (Hs & Hok). apply format_request_ok_iff in Hok.
      rewrite (_from_guild_icon_valid _ _ _ _ _ Hs Hok).
      now destruct (Guild.icon guild).
  - rewrite format_request_ok_iff. split.
    + unfold _from_emoji.
      destruct (given_and_not_in _ _); [discriminate |].
      destruct (is_gif format && _); [discriminate |].
      destruct (negb (bool_decide _)); [discriminate |]. auto.
    + intros Hok. apply format_request_ok_iff in Hok.
      now rewrite (_from_emoji_valid _ _ _ _ Hok).
Qed.

(** X3.  The guild-image factory returns exactly when the size is valid and the
    format static, the sticker factory exactly when the size is valid; the
    icon and cover-image factories return exactly when the source has no
    image or the size is valid and the format static. *)
Theorem static_factories_return_iff (state : option ConnectionState) :
  (forall id hash key format size,
      is_Return (_from_guild_image state id hash key format size) = true <->
      power_of_two_in_range size /\ format ∈ VALID_STATIC_FORMATS) /\
  (forall sticker size,
      is_Return (_from_sticker_url state sticker size) = true <->
      power_of_two_in_range size) /\
  (forall object path format size,
      is_Return (_from_icon state object path format size) = true <->
      IconObject.icon object = None \/
      (power_of_two_in_range size /\ format ∈ VALID_STATIC_FORMATS)) /\
  (forall obj format size,
      is_Return (_from_cover_image state obj format size) = true <->
      CoverObject.cover_image obj = None \/
      (power_of_two_in_range size /\ format ∈ VALID_STATIC_FORMATS)).
Proof.
  split; [| split; [| split]]; intros; rewrite <- valid_icon_size_spec.
  - unfold _from_guild_image.
    destruct (utils.valid_icon_size size); cbn [negb].
    + case_bool_decide as Hf; cbn [negb].
      * split; [auto |]. intros _. now destruct hash.
      * split; [discriminate | now intros [_ ?]].
    + split; [discriminate | now intros [? _]].
  - unfold _from_sticker_url.
    destruct (utils.valid_icon_size size); cbn [negb]; split; auto; discriminate.
  - unfold _from_icon. destruct (IconObject.icon object) as [icon |].
    + destruct (utils.valid_icon_size size); cbn [negb].
      * case_bool_decide as Hf; cbn [negb].
        -- split; auto.
        -- split; [discriminate | intros [? | [_ ?]]; [discriminate | contradiction]].
      * split; [discriminate | intros [? | [? _]]; discriminate].
    + split; auto.
  - unfold _from_cover_image.
    destruct (CoverObject.cover_image obj) as [cover_image |].
    + destruct (utils.valid_icon_size size); cbn [negb].
      * case_bool_decide as Hf; cbn [negb].
        -- split; auto.
        -- split; [discriminate | intros [? | [_ ?]]; [discriminate | contradiction]].
      * split; [discriminate | intros [? | [? _]]; discriminate].
    + split; auto.
Qed.

(** X4.  The factories for static images never take the gif format: the
    guild-image factory raises [InvalidArgument] on it, and so do the icon
    and cover-image factories when the source has an image. *)
Theorem static_factories_reject_gif (state : option ConnectionState) :
  (forall id hash key size,
      is_InvalidArgument (_from_guild_image state id hash key "gif" size) = true) /\
  (forall object path size,
      IconObject.icon object <> None ->
      is_InvalidArgument (_from_icon state object path "gif" size) = true) /\
  (forall obj size,
      CoverObject.cover_image obj <> None ->
      is_InvalidArgument (_from_cover_image state obj "gif" size) = true).
Proof.
  split; [| split].
  - intros. unfold _from_guild_image.
    rewrite (bool_decide_eq_false_2 _ gif_not_static).
    now destruct (utils.valid_icon_size size).
  - intros * Hic. unfold _from_icon.
    destruct (IconObject.icon object); [| contradiction].
    rewrite (bool_decide_eq_false_2 _ gif_not_static).
    now destruct (utils.valid_icon_size size).
  - intros * Hc. unfold _from_cover_image.
    destruct (CoverObject.cover_image obj); [| contradiction].
    rewrite (bool_decide_eq_false_2 _ gif_not_static).
    now destruct (utils.valid_icon_size size).
Qed.

Lemma static_factories_reject_gif_witness :
  IconObject.icon {| IconObject.id := 7; IconObject.icon := Some "abc" |} <> None /\
  is_InvalidArgument
    (_from_icon None {| IconObject.id := 7; IconObject.icon := Some "abc" |}
       "team" "gif" 1024) = true.
Proof.
  split; [discriminate |].
  apply (proj1 (proj2 (static_factories_reject_gif None))). discriminate.
Defined.

(** X5.  The static format is tested on every call of the avatar, guild-icon and
    emoji factories, also when an explicit format leaves it unused: a static
    format outside the static set always gives [InvalidArgument]. *)
Theorem static_format_always_checked (state : option ConnectionState)
    (static_format : string) :
  static_format ∉ VALID_STATIC_FORMATS ->
  (forall user format size,
      is_InvalidArgument
        (_from_avatar state user format static_format size) = true) /\
  (forall guild format size,
      is_InvalidArgument
        (_from_guild_icon state guild format static_format size) = true) /\
  (forall emoji format,
      is_InvalidArgument
        (_from_emoji state emoji format static_format) = true).
Proof.
  intros Hsf. pose proof (bool_decide_eq_false_2 _ Hsf) as Hb.
  split; [| split]; intros;
    unfold _from_avatar, _from_guild_icon, _from_emoji; rewrite Hb;
    cbn [negb]; factory_cases; reflexivity.
Qed.

Lemma static_format_always_checked_witness :
  ("gif" ∉ VALID_STATIC_FORMATS) /\
  is_InvalidArgument
    (_from_emoji None example_emoji (Some "png") "gif") = true.
Proof.
  split; [exact gif_not_static |].
  apply (proj2 (proj2 (static_format_always_checked None "gif" gif_not_static))).
Defined.

Lemma animated_factories_return_iff_witness :
  power_of_two_in_range 256 /\
  format_request_ok None false "webp" /\
  is_Return
    (_from_avatar None (example_user (mkAsset None None)) None "webp" 256) = true.
Proof.
  assert (Hs : power_of_two_in_range 256)
    by (apply valid_icon_size_spec; reflexivity).
  assert (Hok : format_request_ok None false "webp")
    by (apply default_request_ok, static_formats_elem; tauto).
  split; [exact Hs |]. split; [exact Hok |].
  apply (proj1 (animated_factories_return_iff None)). split; [exact Hs | exact Hok].
Defined.

Lemma static_factories_return_iff_witness :
  power_of_two_in_range 64 /\
  is_Return
    (_from_sticker_url None {| Sticker.id := 9; Sticker.image := "abc" |} 64) = true.
Proof.
  assert (Hs : power_of_two_in_range 64)
    by (apply valid_icon_size_spec; reflexivity).
  split; [exact Hs |].
  apply (proj1 (proj2 (static_factories_return_iff None))). exact Hs.
Defined.

(** X6.  The state is stored and never looked at: the same call on two states
    gives the same path, or raises the same exception. *)
Theorem factories_ignore_state (state1 state2 : option ConnectionState) :
  (forall user format static_format size,
      returned_url (_from_avatar state1 user format static_format size) =
      returned_url (_from_avatar state2 user format static_format size)) /\
  (forall object path format size,
      returned_url (_from_icon state1 object path format size) =
      returned_url (_from_icon state2 object path format size)) /\
  (forall obj format size,
      returned_url (_from_cover_image state1 obj format size) =
      returned_url (_from_cover_image state2 obj format size)) /\
  (forall id hash key format size,
      returned_url (_from_guild_image state1 id hash key format size) =
      returned_url (_from_guild_image state2 id hash key format size)) /\
  (forall guild format static_format size,
      returned_url (_from_guild_icon state1 guild format static_format size) =
      returned_url (_from_guild_icon state2 guild format static_format size)) /\
  (forall sticker size,
      returned_url (_from_sticker_url state1 sticker size) =
      returned_url (_from_sticker_url state2 sticker size)) /\
  (forall emoji format static_format,
      returned_url (_from_emoji state1 emoji format static_format) =
      returned_url (_from_emoji state2 emoji format static_format)).
Proof.
  repeat apply conj; intros;
    unfold _from_avatar, _from_icon, _from_cover_image, _from_guild_image,
      _from_guild_icon, _from_sticker_url, _from_emoji;
    factory_cases; reflexivity.
Qed.

(** ** The assets the factories build *)

(** A built asset keeps the state it was built on, and its path is absent or
    starts with a slash. *)
Lemma built_shape (state : option ConnectionState) (a : Asset) :
  built state a ->
  _state a = state /\
  (_url a = None \/ exists rest, _url a = Some ("/" +:+ rest)).
Proof.
  intros [user format static_format size a' Hav H
         | object path format size a' H
         | obj format size a' H
         | id hash key format size a' H
         | guild format static_format size a' H
         | sticker size a' H
         | emoji format static_format a' H];
    revert H;
    unfold _from_avatar, _from_icon, _from_cover_image, _from_guild_image,
      _from_guild_icon, _from_sticker_url, _from_emoji;
    factory_cases; try discriminate; try congruence;
    intros [= <-]; (split; [reflexivity |]);
    cbn [cls _url]; first [now left | right; eexists; reflexivity].
Qed.

Lemma string_length_app (s1 s2 : string) :
  String.length (s1 +:+ s2) = (String.length s1 + String.length s2)%nat.
Proof. induction s1 as [| c s1 IH]; simpl; [reflexivity | now f_equal]. Qed.

(** X7.  A path built by a factory is never the empty string, so on built assets
    [bool] agrees with the truth value of the path, which [len] and [read]
    test: an asset is truthy exactly when its length is not 0. *)
Theorem built_bool_agrees_with_len (state : option ConnectionState) (a : Asset) :
  built state a ->
  _state a = state /\
  _url a <> Some "" /\
  __bool__ a = truthy (_url a) /\
  (__bool__ a = true <-> __len__ a <> 0).
Proof.
  intros Hb. destruct (built_shape state a Hb) as [Hst [Hu | (rest & Hu)]];
    (split; [exact Hst |]); unfold __bool__, __len__; rewrite Hu.
  - split; [discriminate |]. split; [reflexivity |]. split; [discriminate | easy].
  - split; [discriminate |]. split; [reflexivity |].
    split; [| reflexivity]. intros _.
    change (truthy (Some ("/" +:+ rest))) with true. cbn iota.
    rewrite string_length_app. change (String.length BASE) with 26%nat. lia.
Qed.

Lemma built_bool_agrees_with_len_witness :
  built None (mkAsset None (Some "/emojis/55.gif")) /\
  __bool__ (mkAsset None (Some "/emojis/55.gif")) =
    truthy (_url (mkAsset None (Some "/emojis/55.gif"))).
Proof.
  assert (Hb : built None (mkAsset None (Some "/emojis/55.gif"))).
  { apply (built_emoji None example_emoji None "png"). vm_compute. reflexivity. }
  split; [exact Hb |].
  exact (proj1 (proj2 (proj2 (built_bool_agrees_with_len None _ Hb)))).
Defined.

(** ** Length, string and equality *)

(** X8.  [len] is the length of [str], 26 characters of origin and the path,
    except on the empty path: there [len] is 0 while [str] is the origin. *)
Theorem len_is_length_of_str_unless_empty (a : Asset) :
  (_url a <> Some "" -> __len__ a = Z.of_nat (String.length (__str__ a))) /\
  (forall url, _url a = Some url -> url <> "" ->
      __len__ a = 26 + Z.of_nat (String.length url)) /\
  (_url a = Some "" ->
      __len__ a = 0 /\ __str__ a = "https://cdn.discordapp.com").
Proof.
  unfold __len__, __str__. destruct a as [state [url |]]; cbn [_url].
  - assert (Hlen : Z.of_nat (String.length (BASE +:+ url))
                   = 26 + Z.of_nat (String.length url)).
    { rewrite string_length_app. change (String.length BASE) with 26%nat. lia. }
    destruct (String.eqb_spec url "") as [-> | Hne]; cbn [truthy negb].
    + rewrite String.eqb_refl. cbn [negb].
      split; [congruence |]. split; [| now split].
      intros url [= <-] Hne. contradiction.
    + destruct (String.eqb_spec url "") as [| _]; [contradiction |]. cbn [negb].
      split; [reflexivity |]. split; [| congruence].
      intros url' [= <-] _. exact Hlen.
  - split; [reflexivity |]. split; discriminate.
Qed.

Lemma len_is_length_of_str_unless_empty_witness :
  _url (mkAsset None (Some "/emojis/55.gif")) <> Some "" /\
  __len__ (mkAsset None (Some "/emojis/55.gif")) = 40.
Proof.
  split; [discriminate |].
  rewrite (proj1 (len_is_length_of_str_unless_empty
                    (mkAsset None (Some "/emojis/55.gif")))) by discriminate.
  reflexivity.
Defined.

(** X9.  [==] between assets is an equivalence relation. *)
Theorem eq_is_equivalence (a b c : Asset) :
  __eq__ a (VAsset a) = true /\
  __eq__ a (VAsset b) = __eq__ b (VAsset a) /\
  (__eq__ a (VAsset b) = true -> __eq__ b (VAsset c) = true ->
   __eq__ a (VAsset c) = true).
Proof.
  unfold __eq__. split; [| split].
  - now apply bool_decide_eq_true.
  - apply bool_decide_ext. split; congruence.
  - rewrite !bool_decide_eq_true. congruence.
Qed.

Lemma eq_is_equivalence_witness :
  let a := mkAsset None (Some "/emojis/55.gif") in
  let b := mkAsset (Some example_state) (Some "/emojis/55.gif") in
  __eq__ a (VAsset b) = true /\ __eq__ b (VAsset a) = true /\
  __eq__ a (VAsset a) = true.
Proof.
  intros a b.
  assert (Hab : __eq__ a (VAsset b) = true) by reflexivity.
  assert (Hba : __eq__ b (VAsset a) = true) by reflexivity.
  split; [exact Hab |]. split; [exact Hba |].
  exact (proj2 (proj2 (eq_is_equivalence a b a)) Hab Hba).
Defined.

(** X10.  Two assets are equal exactly when their strings are: [str] tells apart
    what [==] tells apart, the absent path included. *)
Theorem eq_iff_same_str (a b : Asset) :
  __eq__ a (VAsset b) = true <-> __str__ a = __str__ b.
Proof.
  unfold __eq__, __str__. rewrite bool_decide_eq_true.
  destruct (_url a) as [u |], (_url b) as [v |]; split;
    try discriminate; try reflexivity.
  - now intros [= ->].
  - intros H. apply (inj (String.app BASE)) in H. now subst.
Qed.

Lemma eq_iff_same_str_witness :
  __str__ (mkAsset None (Some "/emojis/55.gif")) = __str__ example_asset /\
  __eq__ (mkAsset None (Some "/emojis/55.gif")) (VAsset example_asset) = true.
Proof.
  split; [reflexivity |].
  apply (proj2 (eq_iff_same_str (mkAsset None (Some "/emojis/55.gif"))
                  example_asset)).
  reflexivity.
Defined.

(** ** [read] and the other methods *)

Lemma truthy_len (a : Asset) :
  (truthy (_url a) = false -> __len__ a = 0) /\
  (truthy (_url a) = true -> 26 <= __len__ a).
Proof.
  unfold __len__. destruct (_url a) as [url |]; [| split; [reflexivity | discriminate]].
  split; intros Ht; rewrite Ht; [reflexivity |].
  rewrite string_length_app. change (String.length BASE) with 26%nat. lia.
Qed.

Lemma log_changes_world (e : event) (w : World) : log e w <> w.
Proof.
  intros H. apply (f_equal trace) in H. cbn in H.
  apply (f_equal (@length event)) in H. rewrite length_app in H. cbn in H. lia.
Qed.

(** X11.  [read] raises its "no URL" error exactly on the assets of length 0, the
    empty path included, on which [bool] is nevertheless [True]. *)
Theorem read_raises_no_url_iff_len_zero (a : Asset) (w : World) :
  (read a w =
     (w, Raise (DiscordException [Lit "Invalid asset (no URL provided)"])) <->
   __len__ a = 0) /\
  (_url a = Some "" ->
   __bool__ a = true /\
   read a w =
     (w, Raise (DiscordException [Lit "Invalid asset (no URL provided)"]))).
Proof.
  destruct (truthy_len a) as [Hf Ht]. split.
  - destruct (read_cases a w)
      as [(Htr & Hr) | [(Htr & _ & Hr) | (url & st & _ & Htr & _ & Hr)]];
      rewrite Hr; split; auto.
    + discriminate.
    + specialize (Ht Htr). lia.
    + intros [= H _]. now apply log_changes_world in H.
    + specialize (Ht Htr). lia.
  - intros Hu. unfold __bool__, read. rewrite Hu. now split.
Qed.

Lemma read_raises_no_url_iff_len_zero_witness :
  __len__ (mkAsset (Some example_state) (Some "")) = 0 /\
  read (mkAsset (Some example_state) (Some "")) example_world =
    (example_world,
     Raise (DiscordException [Lit "Invalid asset (no URL provided)"])).
Proof.
  split; [reflexivity |].
  apply (proj1 (read_raises_no_url_iff_len_zero
                  (mkAsset (Some example_state) (Some "")) example_world)).
  reflexivity.
Defined.

(** X12.  Reading an asset that a factory built on a connection: with a path,
    [read] makes one request, for [str] of the asset, and returns what the
    CDN answers, an exception included; without a path it raises the
    "no URL" error and makes no request. *)
Theorem read_of_built (state : ConnectionState) (a : Asset) (w : World) :
  built (Some state) a ->
  (_url a <> None ->
   read a w = (log (CdnGet (__str__ a)) w,
               get_from_cdn (http state) (__str__ a))) /\
  (_url a = None ->
   read a w =
     (w, Raise (DiscordException [Lit "Invalid asset (no URL provided)"]))).
Proof.
  intros Hb. destruct (built_shape _ _ Hb) as [Hst [Hu | (rest & Hu)]];
    unfold read, __str__; rewrite Hu, ?Hst.
  - split; [congruence | reflexivity].
  - split; [reflexivity | discriminate].
Qed.

Lemma read_of_built_witness :
  built (Some example_state) example_asset /\
  _url example_asset <> None /\
  read example_asset example_world =
    (log (CdnGet "https://cdn.discordapp.com/emojis/55.gif") example_world,
     Return [Byte.x01; Byte.x02]).
Proof.
  assert (Hb : built (Some example_state) example_asset).
  { apply (built_emoji (Some example_state) example_emoji None "png").
    vm_compute. reflexivity. }
  split; [exact Hb |]. split; [discriminate |].
  rewrite (proj1 (read_of_built example_state example_asset example_world Hb))
    by discriminate.
  reflexivity.
Defined.

(** ** [save]: the seek and the close *)

(** X13.  The file [save] opens is closed on every way out: when the write
    raises, [save] raises that exception and its last call is still the
    close.  When [open] itself raises, neither a write nor a close
    follows. *)
Theorem save_closes_the_file_it_opens
    (a : Asset) (fp : fp_value) (seek_begin : bool) (w w1 : World)
    (data : bytes) :
  read a w = (w1, Return data) ->
  writable_sink fp w = None ->
  (forall p, fp = FpPath p -> p ∉ unwritable w ->
      trace (save a fp seek_begin w).1 =
        (trace w1 ++ [OpenFile fp "wb"; FileWrite p data; FileClose p])%list /\
      (p ∈ write_fails w ->
         (save a fp seek_begin w).2 = Raise (OSError [Lit "cannot write to file"]))) /\
  ((forall p, fp = FpPath p -> p ∈ unwritable w) ->
      trace (save a fp seek_begin w).1 = (trace w1 ++ [OpenFile fp "wb"])%list /\
      is_Return (save a fp seek_begin w).2 = false).
Proof.
  intros Hread Hnone.
  pose proof (read_keeps_storage a w) as (_ & Hunw & Hwf & _).
  pose proof (read_keeps_sink a fp w) as Hsink.
  rewrite save_unfold, Hread in *. cbn [fst] in Hunw, Hwf, Hsink.
  rewrite Hsink, Hnone. split.
  - intros p -> Hp. rewrite <- Hunw in Hp.
    rewrite (file_branch p data w1 Hp). cbn [fst snd].
    split; [apply file_branch_events |].
    intros Hf. rewrite <- Hwf in Hf. now rewrite (bool_decide_eq_true_2 _ Hf).
  - intros Hfail. destruct fp as [p | ref].
    + specialize (Hfail p eq_refl). rewrite <- Hunw in Hfail.
      now rewrite (file_branch_unwritable p data w1 Hfail).
    + now rewrite file_branch_object.
Qed.

Lemma save_closes_the_file_it_opens_witness :
  let w1 := log (CdnGet "https://cdn.discordapp.com/emojis/55.gif") example_world in
  read example_asset example_world = (w1, Return [Byte.x01; Byte.x02]) /\
  writable_sink (FpPath "full.bin") example_world = None /\
  ("full.bin" ∉ unwritable example_world) /\
  ("full.bin" ∈ write_fails example_world) /\
  trace (save example_asset (FpPath "full.bin") true example_world).1 =
    (trace w1 ++ [OpenFile (FpPath "full.bin") "wb";
                  FileWrite "full.bin" [Byte.x01; Byte.x02];
                  FileClose "full.bin"])%list /\
  (save example_asset (FpPath "full.bin") true example_world).2 =
    Raise (OSError [Lit "cannot write to file"]).
Proof.
  intros w1.
  assert (Hread : read example_asset example_world = (w1, Return [Byte.x01; Byte.x02]))
    by reflexivity.
  assert (Hnone : writable_sink (FpPath "full.bin") example_world = None)
    by reflexivity.
  assert (Hp : "full.bin" ∉ unwritable example_world)
    by apply not_elem_of_empty.
  assert (Hf : "full.bin" ∈ write_fails example_world)
    by (unfold example_world; cbn [write_fails]; now apply elem_of_singleton).
  split; [exact Hread |]. split; [exact Hnone |].
  split; [exact Hp |]. split; [exact Hf |].
  destruct (proj1 (save_closes_the_file_it_opens example_asset
                     (FpPath "full.bin") true example_world w1 _ Hread Hnone)
              "full.bin" eq_refl Hp) as [Htrace Hraise].
  split; [exact Htrace | exact (Hraise Hf)].
Defined.

Lemma save_on_sink (a : Asset) (fp : fp_value) (seek_begin : bool)
    (w w1 : World) (data : bytes) (ref : nat) (s : stream) :
  read a w = (w1, Return data) ->
  writable_sink fp w = Some (ref, s) ->
  save a fp seek_begin w =
    match write s data with
    | Raise e => (log (SinkWrite ref data) w1, Raise e)
    | Return n =>
        if seek_begin then
          (log (SinkSeek ref 0) (log (SinkWrite ref data) w1),
           match seek s 0 with
           | Return _ => Return n
           | Raise e => Raise e
           end)
        else (log (SinkWrite ref data) w1, Return n)
    end.
Proof.
  intros Hread Hws.
  pose proof (read_keeps_sink a fp w) as Hsink.
  rewrite save_unfold, Hread in *. cbn [fst] in Hsink.
  rewrite Hsink, Hws. apply sink_branch.
Qed.

(** X14.  On a writable sink whose write returns a count: without
    [seek_begin], that count is returned and the write is the only call;
    with [seek_begin], [seek(0)] is called after the write, and what it
    raises comes out of [save], so that on a sink that cannot seek [save]
    raises although the bytes have been handed over. *)
Theorem save_seeks_after_the_write
    (a : Asset) (fp : fp_value) (w w1 : World) (data : bytes)
    (ref : nat) (s : stream) (n : Z) :
  read a w = (w1, Return data) ->
  writable_sink fp w = Some (ref, s) ->
  write s data = Return n ->
  save a fp false w = (log (SinkWrite ref data) w1, Return n) /\
  trace (save a fp true w).1 =
    (trace w1 ++ [SinkWrite ref data; SinkSeek ref 0%nat])%list /\
  (forall pos, seek s 0 = Return pos -> (save a fp true w).2 = Return n) /\
  (forall e, seek s 0 = Raise e -> (save a fp true w).2 = Raise e).
Proof.
  intros Hread Hws Hwr.
  rewrite !(save_on_sink a fp _ w w1 data ref s Hread Hws), Hwr.
  cbn [fst snd log trace].
  split; [reflexivity |]. split; [now rewrite <- app_assoc |].
  split; [intros pos -> | intros e ->]; reflexivity.
Qed.

Lemma save_seeks_after_the_write_witness :
  let w1 := log (CdnGet "https://cdn.discordapp.com/emojis/55.gif") example_world in
  read example_asset example_world = (w1, Return [Byte.x01; Byte.x02]) /\
  writable_sink (FpObject 2) example_world = Some (2%nat, example_pipe) /\
  write example_pipe [Byte.x01; Byte.x02] = Return 2 /\
  seek example_pipe 0 = Raise (OSError [Lit "underlying stream is not seekable"]) /\
  trace (save example_asset (FpObject 2) true example_world).1 =
    (trace w1 ++ [SinkWrite 2 [Byte.x01; Byte.x02]; SinkSeek 2 0])%list /\
  (save example_asset (FpObject 2) true example_world).2 =
    Raise (OSError [Lit "underlying stream is not seekable"]).
Proof.
  intros w1.
  assert (Hread : read example_asset example_world = (w1, Return [Byte.x01; Byte.x02]))
    by reflexivity.
  assert (Hws : writable_sink (FpObject 2) example_world
                = Some (2%nat, example_pipe))
    by (vm_compute; reflexivity).
  assert (Hwr : write example_pipe [Byte.x01; Byte.x02] = Return 2)
    by reflexivity.
  split; [exact Hread |]. split; [exact Hws |]. split; [exact Hwr |].
  split; [reflexivity |].
  destruct (save_seeks_after_the_write example_asset (FpObject 2) example_world
              w1 _ 2%nat example_pipe 2 Hread Hws Hwr)
    as (_ & Htrace & _ & Hraise).
  split; [exact Htrace | exact (Hraise _ eq_refl)].
Defined.

(** ** What a path tells about the call *)

Lemma string_app_inj_r (s1 s2 t : string) : s1 +:+ t = s2 +:+ t -> s1 = s2.
Proof.
  revert s2. induction s1 as [| c s1 IH]; intros [| d s2] H; simpl in H.
  - reflexivity.
  - apply (f_equal String.length) in H.
    rewrite !string_length_app in H. simpl in H. lia.
  - apply (f_equal String.length) in H.
    rewrite !string_length_app in H. simpl in H. lia.
  - injection H as -> H. f_equal. now apply IH.
Qed.

Lemma _from_avatar_Return_inv state user format static_format size a :
  _from_avatar state user format static_format size = Return a ->
  utils.valid_icon_size size = true /\
  format_request_ok format (User.is_avatar_animated user) static_format.
Proof.
  rewrite format_request_ok_iff. unfold _from_avatar.
  destruct (utils.valid_icon_size size); cbn [negb]; [| discriminate].
  destruct (given_and_not_in _ _); [discriminate |].
  destruct (is_gif format && _); [discriminate |].
  destruct (negb (bool_decide _)); [discriminate |]. auto.
Qed.

Lemma _from_emoji_Return_inv state emoji format static_format a :
  _from_emoji state emoji format static_format = Return a ->
  format_request_ok format (Emoji.animated emoji) static_format.
Proof.
  rewrite format_request_ok_iff. unfold _from_emoji.
  destruct (given_and_not_in _ _); [discriminate |].
  destruct (is_gif format && _); [discriminate |].
  destruct (negb (bool_decide _)); [discriminate |]. auto.
Qed.

(** X15.  Two avatar assets of one user, asked for in the same format, are equal
    exactly when they were asked for in the same size. *)
Theorem avatar_assets_equal_iff_same_size
    (state : option ConnectionState) (user : User.t) (format : option string)
    (static_format : string) (size1 size2 : Z) (a1 a2 : Asset) :
  User.avatar user <> None ->
  _from_avatar state user format static_format size1 = Return a1 ->
  _from_avatar state user format static_format size2 = Return a2 ->
  (__eq__ a1 (VAsset a2) = true <-> size1 = size2).
Proof.
  intros Hav H1 H2.
  destruct (_from_avatar_Return_inv _ _ _ _ _ _ H1) as [Hs1 Hok].
  destruct (_from_avatar_Return_inv _ _ _ _ _ _ H2) as [Hs2 _].
  rewrite (_from_avatar_valid _ _ _ _ _ Hs1 Hok) in H1.
  rewrite (_from_avatar_valid _ _ _ _ _ Hs2 Hok) in H2.
  destruct (User.avatar user) as [avatar |]; [| contradiction].
  injection H1 as <-. injection H2 as <-.
  unfold __eq__. rewrite bool_decide_eq_true. cbn [cls _url]. split.
  - intros [= H]. do 7 apply (inj (String.app _)) in H.
    now apply (inj pretty) in H.
  - now intros ->.
Qed.

Lemma avatar_assets_equal_iff_same_size_witness :
  let user := example_user (mkAsset None None) in
  User.avatar user <> None /\
  _from_avatar None user None "webp" 256 =
    Return (mkAsset None (Some "/avatars/123/abc.webp?size=256")) /\
  _from_avatar None user None "webp" 512 =
    Return (mkAsset None (Some "/avatars/123/abc.webp?size=512")) /\
  __eq__ (mkAsset None (Some "/avatars/123/abc.webp?size=256"))
    (VAsset (mkAsset None (Some "/avatars/123/abc.webp?size=512"))) <> true.
Proof.
  intros user.
  assert (Hav : User.avatar user <> None) by discriminate.
  assert (H1 : _from_avatar None user None "webp" 256 =
               Return (mkAsset None (Some "/avatars/123/abc.webp?size=256")))
    by (vm_compute; reflexivity).
  assert (H2 : _from_avatar None user None "webp" 512 =
               Return (mkAsset None (Some "/avatars/123/abc.webp?size=512")))
    by (vm_compute; reflexivity).
  split; [exact Hav |]. split; [exact H1 |]. split; [exact H2 |].
  intros Heq.
  apply (avatar_assets_equal_iff_same_size None user None "webp" 256 512
           _ _ Hav H1 H2) in Heq.
  discriminate Heq.
Defined.

(** X16.  Two emoji assets asked for in the same format, of emojis that are both
    animated or both not, are equal exactly when the emojis have the same
    id. *)
Theorem emoji_assets_equal_iff_same_id
    (state : option ConnectionState) (emoji1 emoji2 : Emoji.t)
    (format : option string) (static_format : string) (a1 a2 : Asset) :
  Emoji.animated emoji1 = Emoji.animated emoji2 ->
  _from_emoji state emoji1 format static_format = Return a1 ->
  _from_emoji state emoji2 format static_format = Return a2 ->
  (__eq__ a1 (VAsset a2) = true <-> Emoji.id emoji1 = Emoji.id emoji2).
Proof.
  intros Han H1 H2.
  pose proof (_from_emoji_Return_inv _ _ _ _ _ H1) as Hok1.
  pose proof (_from_emoji_Return_inv _ _ _ _ _ H2) as Hok2.
  rewrite (_from_emoji_valid _ _ _ _ Hok1) in H1.
  rewrite (_from_emoji_valid _ _ _ _ Hok2) in H2.
  injection H1 as <-. injection H2 as <-.
  unfold __eq__. rewrite bool_decide_eq_true. cbn [cls _url]. rewrite Han. split.
  - intros [= H]. apply (inj (String.app _)) in H.
    apply string_app_inj_r in H. now apply (inj pretty) in H.
  - now intros ->.
Qed.

Lemma emoji_assets_equal_iff_same_id_witness :
  let other : Emoji.t := {| Emoji.id := 56; Emoji.animated := true |} in
  Emoji.animated example_emoji = Emoji.animated other /\
  _from_emoji None example_emoji None "png" =
    Return (mkAsset None (Some "/emojis/55.gif")) /\
  _from_emoji None other None "png" =
    Return (mkAsset None (Some "/emojis/56.gif")) /\
  __eq__ (mkAsset None (Some "/emojis/55.gif"))
    (VAsset (mkAsset None (Some "/emojis/56.gif"))) <> true.
Proof.
  intros other.
  assert (H1 : _from_emoji None example_emoji None "png" =
               Return (mkAsset None (Some "/emojis/55.gif")))
    by (vm_compute; reflexivity).
  assert (H2 : _from_emoji None other None "png" =
               Return (mkAsset None (Some "/emojis/56.gif")))
    by (vm_compute; reflexivity).
  split; [reflexivity |]. split; [exact H1 |]. split; [exact H2 |].
  intros Heq.
  apply (emoji_assets_equal_iff_same_id None example_emoji other None "png"
           _ _ eq_refl H1 H2) in Heq.
  discriminate Heq.
Defined.
